(** * fileexplorer: opening the host file manager on a path

    Shallow embedding of [v3/internal/fileexplorer/fileexplorer.go].

    Go strings are byte sequences: they are modelled by [string], whose
    characters ([ascii]) are exactly the 256 byte values.  The host
    (file system, environment, process table) is a record of oracles and
    [Open] runs in a small reader/writer monad that logs every host call
    it performs. *)

From Stdlib Require Import String Ascii List Bool Arith ZArith Lia.
Open Scope string_scope.
Import ListNotations.
Open Scope list_scope.
Open Scope nat_scope.

(** ** Package [strings]: [TrimSpace] and [ToUpper] *)

Module Strings.

(** [utf8.RuneSelf]: bytes below it are single-byte runes. *)
Definition RuneSelf : nat := 128.

(** The table [asciiSpace]: tab, newline, vertical tab, form feed,
    carriage return and space. *)
Definition asciiSpace (c : ascii) : bool :=
  let n := nat_of_ascii c in
  (n =? 9) || (n =? 10) || (n =? 11) || (n =? 12) || (n =? 13) || (n =? 32).

Definition isLower (c : ascii) : bool :=
  (97 <=? nat_of_ascii c) && (nat_of_ascii c <=? 122).

(** [c -= 'a' - 'A'] on a lower-case ASCII letter. *)
Definition upperByte (c : ascii) : ascii :=
  if isLower c then ascii_of_nat (nat_of_ascii c - 32) else c.

(** The parts of package [unicode] the two functions fall back to as soon
    as they meet a byte [>= RuneSelf].  The Unicode tables are not part of
    this development: the three slow paths are kept abstract. *)
Record UnicodeTables : Type := {
  (** [TrimFunc(s, unicode.IsSpace)] *)
  TrimFunc_IsSpace : string -> string;
  (** [TrimRightFunc(s, unicode.IsSpace)] *)
  TrimRightFunc_IsSpace : string -> string;
  (** [Map(unicode.ToUpper, s)] *)
  Map_ToUpper : string -> string
}.

Section WithUnicode.

Variable U : UnicodeTables.

(** Second loop of [TrimSpace], on [s[start:]]: [stop] moves down from the
    end.  The loop reads the bytes last to first, so it is phrased on the
    reversed byte list; what it returns is the bytes of [s[start:stop]],
    still reversed, tagged [inr] when it stopped on a non-ASCII byte. *)
Fixpoint scanStop (rev_s : list ascii) : list ascii + list ascii :=
  match rev_s with
  | [] => inl []
  | c :: t =>
      if RuneSelf <=? nat_of_ascii c then inr rev_s
      else if asciiSpace c then scanStop t
      else inl rev_s
  end.

Definition trimStop (s : string) : string :=
  match scanStop (rev (list_ascii_of_string s)) with
  | inl kept => string_of_list_ascii (rev kept)
  | inr kept => TrimRightFunc_IsSpace U (string_of_list_ascii (rev kept))
  end.

(** [strings.TrimSpace]. *)
Fixpoint TrimSpace (s : string) : string :=
  match s with
  | EmptyString => trimStop EmptyString
  | String c t =>
      if RuneSelf <=? nat_of_ascii c then TrimFunc_IsSpace U s
      else if asciiSpace c then TrimSpace t
      else trimStop s
  end.

Definition isASCII (s : string) : bool :=
  forallb (fun c => nat_of_ascii c <? RuneSelf) (list_ascii_of_string s).

Fixpoint mapBytes (f : ascii -> ascii) (s : string) : string :=
  match s with
  | EmptyString => EmptyString
  | String c t => String (f c) (mapBytes f t)
  end.

(** [strings.ToUpper]. *)
Definition ToUpper (s : string) : string :=
  if isASCII s then mapBytes upperByte s else Map_ToUpper U s.

End WithUnicode.

End Strings.

(** ** Package [path/filepath] on Unix: [Clean] and [Dir] *)

Module Filepath.

Definition Separator : ascii := "/"%char.

Definition IsPathSeparator (c : ascii) : bool := Ascii.eqb c Separator.

Definition isDot (c : ascii) : bool := Ascii.eqb c "."%char.

(** [lazybuf]: the output buffer of [Clean] with its write index [w].
    Bytes at positions [>= w] are stale; [index] may still read them. *)
Record lazybuf : Type := { buf : list ascii; w : nat }.

Definition lb_index (b : lazybuf) (i : nat) : ascii := nth i (buf b) zero.

Definition lb_append (b : lazybuf) (c : ascii) : lazybuf :=
  {| buf := firstn (w b) (buf b) ++ [c]; w := S (w b) |}.

Definition lb_string (b : lazybuf) : string :=
  string_of_list_ascii (firstn (w b) (buf b)).

(** [for out.w > dotdot && !os.IsPathSeparator(out.index(out.w)) { out.w-- }] *)
Fixpoint backtrack (out : lazybuf) (dotdot : nat) (w : nat) : nat :=
  match w with
  | O => O
  | S w' =>
      if (dotdot <? w) && negb (IsPathSeparator (lb_index out w))
      then backtrack out dotdot w'
      else w
  end.

(** [r+k == n || os.IsPathSeparator(path[r+k])], on the bytes from [r+k]. *)
Definition endOrSep (rest : list ascii) : bool :=
  match rest with
  | [] => true
  | c :: _ => IsPathSeparator c
  end.

(** The main loop of [Clean]; [rest] is [path[r:]].  In the last case the
    first byte of the element is known not to be a separator, so the
    copying loop is entered after its first round. *)
Fixpoint cleanLoop (rooted : bool) (rest : list ascii) (dotdot : nat)
    (out : lazybuf) {struct rest} : lazybuf :=
  match rest with
  | [] => out
  | c :: t =>
      let element :=
        (* real path element: add slash if needed, copy element *)
        let out1 :=
          if (rooted && negb (w out =? 1)) || (negb rooted && negb (w out =? 0))
          then lb_append out Separator else out in
        (fix copy (l : list ascii) (o : lazybuf) {struct l} : lazybuf :=
           match l with
           | [] => o
           | c' :: l' =>
               if IsPathSeparator c' then cleanLoop rooted l dotdot o
               else copy l' (lb_append o c')
           end) t (lb_append out1 c) in
      if IsPathSeparator c then
        (* empty path element *)
        cleanLoop rooted t dotdot out
      else if isDot c && endOrSep t then
        (* . element *)
        cleanLoop rooted t dotdot out
      else
        match t with
        | c1 :: t' =>
            if isDot c && isDot c1 && endOrSep t' then
              (* .. element: remove to last separator *)
              if dotdot <? w out then
                (* can backtrack *)
                cleanLoop rooted t' dotdot
                  {| buf := buf out; w := backtrack out dotdot (w out - 1) |}
              else if negb rooted then
                (* cannot backtrack, but not rooted, so append .. element *)
                let o1 := if 0 <? w out then lb_append out Separator else out in
                let o2 := lb_append (lb_append o1 "."%char) "."%char in
                cleanLoop rooted t' (w o2) o2
              else cleanLoop rooted t' dotdot out
            else element
        | [] => element
        end
  end.

(** [filepath.Clean] (no volume names on Unix; [FromSlash] is the
    identity there). *)
Definition Clean (path : string) : string :=
  match list_ascii_of_string path with
  | [] => "."
  | c :: t =>
      let rooted := IsPathSeparator c in
      let out :=
        if rooted
        then cleanLoop rooted t 1 (lb_append {| buf := []; w := 0 |} Separator)
        else cleanLoop rooted (c :: t) 0 {| buf := []; w := 0 |} in
      (* Turn empty string into "." *)
      lb_string (if w out =? 0 then lb_append out "."%char else out)
  end.

(** The scan of [Dir]: [i] moves down from [len(path) - 1] while
    [path[i]] is not a separator; the result is [i + 1]. *)
Fixpoint dirScan (path : list ascii) (k : nat) : nat :=
  match k with
  | O => O
  | S i => if IsPathSeparator (nth i path zero) then k else dirScan path i
  end.

(** [filepath.Dir] ([VolumeName] is empty on Unix). *)
Definition Dir (path : string) : string :=
  let p := list_ascii_of_string path in
  Clean (string_of_list_ascii (firstn (dirScan p (List.length p)) p)).

End Filepath.

(** ** Package [fileexplorer] *)

Module FileExplorer.

Import Strings Filepath.

(** *** Errors *)

(** [os.ProcessState], through the methods the code depends on. *)
Record ProcessState : Type := { ExitCode : Z; StateString : string }.

Definition Success (st : ProcessState) : bool := (ExitCode st =? 0)%Z.

(** The dynamic types an [error] value can have here: an opaque message
    ([errors.New], and the errors of the host), [*exec.ExitError], and the
    wrapper built by [fmt.Errorf] with the verb [%w]. *)
Inductive error : Type :=
| errorString (s : string)
| ExitError (state : ProcessState)
| wrapError (msg : string) (err : error).

Definition Error (e : error) : string :=
  match e with
  | errorString s => s
  | ExitError st => StateString st
  | wrapError msg _ => msg
  end.

Definition errors_New (text : string) : error := errorString text.

(** [fmt.Errorf] with the format [prefix] followed by [%w]. *)
Definition fmt_Errorf (prefix : string) (err : error) : error :=
  wrapError (prefix ++ Error err)%string err.

(** The type assertion of [err] to [exec.ExitError]. *)
Definition isExitError (err : error) : bool :=
  match err with
  | ExitError _ => true
  | _ => false
  end.

(** *** The host *)

(** [os.FileInfo], through [IsDir]. *)
Record FileInfo : Type := { IsDir : bool }.

Record Host : Type := {
  (** [runtime.GOOS] *)
  GOOS : string;
  (** [os.Stat] *)
  stat : string -> FileInfo + error;
  (** the environment; an unset variable reads as the empty string *)
  environ : string -> string;
  (** starting a process: [None] when it started *)
  start : string -> list string -> option error;
  (** [os.Process.Wait] on the started process *)
  wait : string -> list string -> ProcessState + error
}.

(** Calls logged while [Open] runs.  [EvBinArgs] is a marker, not a host
    call: it records the arguments of the call
    [explorerBinArgs(path, selectFile)] in [Open]. *)
Inductive Event : Type :=
| EvStat (name : string)
| EvGetenv (key : string)
| EvBinArgs (path : string) (selectFile : bool)
| EvStart (name : string) (args : list string)
| EvWait (name : string) (args : list string).

Definition IO (A : Type) : Type := Host -> A * list Event.

Definition ret {A : Type} (a : A) : IO A := fun _ => (a, []).

Definition bind {A B : Type} (m : IO A) (k : A -> IO B) : IO B :=
  fun h =>
    let (a, t1) := m h in
    let (b, t2) := k a h in
    (b, t1 ++ t2).

Notation "x <- m ;; k" := (bind m (fun x => k))
  (at level 61, m at next level, right associativity).

Definition log (e : Event) : IO unit := fun _ => (tt, [e]).

Definition runtime_GOOS : IO string := fun h => (GOOS h, []).

Definition os_Stat (name : string) : IO (FileInfo + error) :=
  fun h => (stat h name, [EvStat name]).

Definition os_Getenv (key : string) : IO string :=
  fun h => (environ h key, [EvGetenv key]).

(** [exec.Command(name, args...)] followed by [cmd.Start()]. *)
Definition cmd_Start (name : string) (args : list string) : IO (option error) :=
  fun h => (start h name args, [EvStart name args]).

(** [cmd.Wait()]: an unsuccessful [ProcessState] becomes an [*ExitError]. *)
Definition cmd_Wait (name : string) (args : list string) : IO (option error) :=
  fun h =>
    (match wait h name args with
     | inr err => Some err
     | inl state => if Success state then None else Some (ExitError state)
     end, [EvWait name args]).

(** *** The strategies *)

Definition explorerBinArgs : Type :=
  string -> bool -> IO (string * list string * option error).

Definition dquote : ascii := "034"%char.

(** [fmt.Sprintf] with the format [/select,] quote [%s] quote. *)
Definition selectToken (path : string) : string :=
  ("/select," ++ String dquote (path ++ String dquote EmptyString))%string.

Definition windowsExplorerBinArgs : explorerBinArgs := fun path selectFile =>
  let args := [] in
  let args := if selectFile then args ++ [selectToken path] else args ++ [path] in
  ret ("explorer", args, None).

Definition darwinExplorerBinArgs : explorerBinArgs := fun path selectFile =>
  let args := [] in
  let args := if selectFile then args ++ ["-R"] else args in
  let args := args ++ [path] in
  ret ("open", args, None).

Definition linuxGnomeExplorerBinArgs : explorerBinArgs := fun path selectFile =>
  let path := if negb selectFile then Dir path else path in
  ret ("nautilus", [path], None).

Definition linuxKdeExplorerBinArgs : explorerBinArgs := fun path selectFile =>
  let path := if negb selectFile then Dir path else path in
  ret ("dolphin", [path], None).

Definition linuxXfceExplorerBinArgs : explorerBinArgs := fun path selectFile =>
  let path := if negb selectFile then Dir path else path in
  ret ("thunar", [path], None).

Definition linuxMateExplorerBinArgs : explorerBinArgs := fun path selectFile =>
  let path := if negb selectFile then Dir path else path in
  ret ("caja", [path], None).

Definition linuxLxqtExplorerBinArgs : explorerBinArgs := fun path selectFile =>
  let path := if negb selectFile then Dir path else path in
  ret ("pcmanfm-qt", [path], None).

Definition linuxCinnamonExplorerBinArgs : explorerBinArgs := fun path selectFile =>
  let path := if negb selectFile then Dir path else path in
  ret ("nemo", [path], None).

(** The linux fallback explorer opening is not supporting file selection. *)
Definition linuxFallbackExplorerBinArgs : explorerBinArgs := fun path _ =>
  let path := Dir path in
  ret ("xdg-open", [path], None).

Section WithUnicode.

Variable U : UnicodeTables.

(** The [switch desktopEnvironment] of [linuxExplorerBinArgs]. *)
Definition linuxDispatch (desktopEnvironment : string) : explorerBinArgs :=
  let de := desktopEnvironment in
  if ((de =? "CINNAMON") || (de =? "X-CINNAMON"))%string then
    linuxCinnamonExplorerBinArgs
  else if ((de =? "GNOME") || (de =? "GNOME-FLASHBACK")
           || (de =? "GNOME-FLASHBACK:GNOME"))%string then
    linuxGnomeExplorerBinArgs
  else if (de =? "KDE")%string then linuxKdeExplorerBinArgs
  else if (de =? "LXQT")%string then linuxLxqtExplorerBinArgs
  else if (de =? "MATE")%string then linuxMateExplorerBinArgs
  else if (de =? "XFCE")%string then linuxXfceExplorerBinArgs
  else linuxFallbackExplorerBinArgs.

(** [strings.ToUpper(strings.TrimSpace(v))] *)
Definition normalize (v : string) : string := ToUpper U (TrimSpace U v).

Definition linuxExplorerBinArgs : explorerBinArgs := fun path selectFile =>
  v <- os_Getenv "XDG_CURRENT_DESKTOP" ;;
  let desktopEnvironment := normalize v in
  let explorerBinArgs := linuxDispatch desktopEnvironment in
  explorerBinArgs path selectFile.

(** The [switch runtime.GOOS] of [Open]: the strategy and the value of
    [ignoreExitCode], or [None] in the [default] case. *)
Definition platform (goos : string) : option (explorerBinArgs * bool) :=
  if (goos =? "windows")%string then Some (windowsExplorerBinArgs, true)
  else if (goos =? "darwin")%string then Some (darwinExplorerBinArgs, false)
  else if (goos =? "linux")%string then Some (linuxExplorerBinArgs, false)
  else None.

Definition Open (path : string) (selectFile : bool) : IO (option error) :=
  st <- os_Stat path ;;
  match st with
  | inr err =>
      ret (Some (fmt_Errorf "failed to access the specified path stat: " err))
  | inl pathInfo =>
      let selectFile := selectFile && negb (IsDir pathInfo) in
      goos <- runtime_GOOS ;;
      match platform goos with
      | None => ret (Some (errors_New "unsupported platform"))
      | Some (explorerBinArgs, ignoreExitCode) =>
          _ <- log (EvBinArgs path selectFile) ;;
          r <- explorerBinArgs path selectFile ;;
          let '(explorerBin, explorerArgs, err) := r in
          match err with
          | Some err =>
              ret (Some (fmt_Errorf
                           "failed to determine the file explorer binary: " err))
          | None =>
              s <- cmd_Start explorerBin explorerArgs ;;
              match s with
              | Some err =>
                  ret (Some (fmt_Errorf
                               "failed to start the file explorer process: " err))
              | None =>
                  x <- cmd_Wait explorerBin explorerArgs ;;
                  match x with
                  | Some err =>
                      if isExitError err && ignoreExitCode then ret None
                      else ret (Some (fmt_Errorf
                                        "file explorer process failed: " err))
                  | None => ret None
                  end
              end
          end
      end
  end.

End WithUnicode.

(** Tables for runs on ASCII inputs, where no slow path is taken. *)
Definition asciiOnly : UnicodeTables :=
  {| TrimFunc_IsSpace := fun s => s;
     TrimRightFunc_IsSpace := fun s => s;
     Map_ToUpper := fun s => s |}.

(** A host for examples. *)
Definition exampleHost (goos : string) (dirs files : list string)
    (desktop : string) (missing : list string) (code : Z) : Host :=
  {| GOOS := goos;
     stat := fun name =>
       if existsb (String.eqb name) dirs then inl {| IsDir := true |}
       else if existsb (String.eqb name) files then inl {| IsDir := false |}
       else inr (errorString ("stat " ++ name ++ ": no such file or directory")%string);
     environ := fun key =>
       if (key =? "XDG_CURRENT_DESKTOP")%string then desktop else EmptyString;
     start := fun name _ =>
       if existsb (String.eqb name) missing
       then Some (errorString ("exec: " ++ name ++ ": executable file not found")%string)
       else None;
     wait := fun _ _ =>
       inl {| ExitCode := code; StateString := "exit status" |} |}.

End FileExplorer.

(** * Properties *)

Import Strings Filepath FileExplorer.

(** The text of the four wrapped errors of [Open]. *)
Definition statPrefix : string := "failed to access the specified path stat: ".
Definition binPrefix : string := "failed to determine the file explorer binary: ".
Definition startPrefix : string := "failed to start the file explorer process: ".
Definition waitPrefix : string := "file explorer process failed: ".

(** What [Open] does once a strategy has produced [(bin, args)]: the tail
    of the function from [exec.Command] on. *)
Definition launched (h : Host) (ignoreExitCode : bool) (bin : string)
    (args : list string) : option error * list Event :=
  match start h bin args with
  | Some err => (Some (fmt_Errorf startPrefix err), [EvStart bin args])
  | None =>
      (match fst (cmd_Wait bin args h) with
       | Some err =>
           if isExitError err && ignoreExitCode then None
           else Some (fmt_Errorf waitPrefix err)
       | None => None
       end, [EvStart bin args; EvWait bin args])
  end.

Definition desktopNames : list string :=
  ["CINNAMON"; "X-CINNAMON"; "GNOME"; "GNOME-FLASHBACK";
   "GNOME-FLASHBACK:GNOME"; "KDE"; "LXQT"; "MATE"; "XFCE"].

Definition XDG : string := "XDG_CURRENT_DESKTOP".

(** Runs of ASCII white space, and ASCII words that neither begin nor end
    with white space: the identifiers on which [TrimSpace] and [ToUpper]
    stay on their ASCII paths. *)
Definition asciiPadding (l : list ascii) : bool := forallb asciiSpace l.

Definition noSpaceAhead (l : list ascii) : bool :=
  match l with
  | [] => true
  | c :: _ => negb (asciiSpace c)
  end.

Definition asciiWord (l : list ascii) : bool :=
  forallb (fun c => nat_of_ascii c <? RuneSelf) l
  && noSpaceAhead l && noSpaceAhead (rev l).

(** The six strategies of the named desktop environments, each with the
    executable it resolves to. *)
Definition namedStrategies : list (string * explorerBinArgs) :=
  [("nemo", linuxCinnamonExplorerBinArgs);
   ("nautilus", linuxGnomeExplorerBinArgs);
   ("dolphin", linuxKdeExplorerBinArgs);
   ("pcmanfm-qt", linuxLxqtExplorerBinArgs);
   ("caja", linuxMateExplorerBinArgs);
   ("thunar", linuxXfceExplorerBinArgs)].

(** *** Hosts for concrete runs *)

Definition okState (code : Z) : ProcessState :=
  {| ExitCode := code; StateString := "exit status" |}.

(** A host where /home/user is a directory holding the file doc.txt. *)
Definition homeHost (goos desktop : string) (missing : list string)
    (code : Z) : Host :=
  exampleHost goos ["/"; "/home"; "/home/user"] ["/home/user/doc.txt"]
    desktop missing code.

Definition doc : string := "/home/user/doc.txt".

(** The executable [linuxExplorerBinArgs] resolves to when the variable
    holds [desktop]. *)
Definition binFor (desktop : string) : string :=
  fst (fst (fst (linuxExplorerBinArgs asciiOnly doc false
                   (homeHost "linux" desktop [] 0)))).

(** A host whose [wait] fails with [err] instead of reporting a state. *)
Definition waitFailing (h : Host) (err : error) : Host :=
  {| GOOS := GOOS h; stat := stat h; environ := environ h;
     start := start h; wait := fun _ _ => inr err |}.

(** *** Reading errors and logs *)

(** [errors.Unwrap]: the error wrapped with [%w], if any. *)
Definition errors_Unwrap (err : error) : option error :=
  match err with
  | wrapError _ e => Some e
  | _ => None
  end.

Definition isStart (ev : Event) : bool :=
  match ev with
  | EvStart _ _ => true
  | _ => false
  end.

(** The process starts of a log, in order. *)
Definition starts (t : list Event) : list Event := filter isStart t.

Definition hasSeparator (path : string) : bool :=
  existsb IsPathSeparator (list_ascii_of_string path).

(** The copying loop of [Clean], as it stands inside [cleanLoop]. *)
Definition copyElement (rooted : bool) (dotdot : nat) :
    list ascii -> lazybuf -> lazybuf :=
  fix copy (l : list ascii) (o : lazybuf) {struct l} : lazybuf :=
    match l with
    | [] => o
    | c' :: l' =>
        if IsPathSeparator c' then cleanLoop rooted l dotdot o
        else copy l' (lb_append o c')
    end.

(** The state of [Clean] on a rooted path: [dotdot] stays at 1 and the
    buffer keeps its leading separator. *)
Definition rootedBuffer (dd : nat) (o : lazybuf) : Prop :=
  dd = 1 /\ 1 <= w o /\ w o <= List.length (buf o) /\
  nth 0 (buf o) zero = Separator.

Ltac unfold_io :=
  unfold bind, ret, log, os_Stat, os_Getenv, runtime_GOOS, cmd_Start, cmd_Wait.

Ltac string_cases :=
  repeat match goal with
         | |- context [String.eqb ?a ?b] =>
             destruct (String.eqb_spec a b); simpl; subst
         end.

(** Sample values of [Clean] and [Dir]. *)
Example Clean_samples :
  Clean "abc//def//ghi" = "abc/def/ghi" /\
  Clean "abc/def/../ghi/../jkl" = "abc/jkl" /\
  Clean "abc/def/../../.." = ".." /\
  Clean "/abc/def/../../.." = "/" /\
  Clean "abc/def/../../../ghi/jkl/../../../mno" = "../../mno" /\
  Clean "abc/../../././../def" = "../../def" /\
  Clean "/../abc" = "/abc" /\
  Clean "abc/" = "abc" /\
  Clean EmptyString = ".".
Proof. repeat split. Qed.

Example Dir_samples :
  Dir "/foo/bar/baz.js" = "/foo/bar" /\
  Dir "/foo/bar/baz/" = "/foo/bar/baz" /\
  Dir "/dirty//path///" = "/dirty/path" /\
  Dir "dev.txt" = "." /\
  Dir "../todo.txt" = ".." /\
  Dir ".." = "." /\
  Dir "/usr" = "/" /\
  Dir "/" = "/" /\
  Dir EmptyString = ".".
Proof. repeat split. Qed.

Section Properties.

Variable U : UnicodeTables.

(** Every strategy selected by the platform switch yields a launch spec
    with a nil error, logging at most the environment read. *)
Lemma platform_strategy_total goos f ig path sel h :
  platform U goos = Some (f, ig) ->
  exists bin args pre,
    f path sel h = ((bin, args, None), pre) /\
    (pre = [] \/ pre = [EvGetenv XDG]).
Proof.
  unfold platform. intros H.
  destruct (String.eqb goos "windows");
    [ injection H as <- <- | destruct (String.eqb goos "darwin");
      [ injection H as <- <- | destruct (String.eqb goos "linux");
        [ injection H as <- <- | discriminate ] ] ].
  - eexists _, _, _. split; [reflexivity | now left].
  - eexists _, _, _. split; [reflexivity | now left].
  - unfold linuxExplorerBinArgs, linuxDispatch. unfold_io.
    generalize (normalize U (environ h "XDG_CURRENT_DESKTOP")). intros de.
    string_cases; eexists _, _, _; (split; [reflexivity | now right]).
Qed.

(** [Open] when [os.Stat] fails. *)
Lemma Open_stat_error h path sel e :
  stat h path = inr e ->
  Open U path sel h = (Some (fmt_Errorf statPrefix e), [EvStat path]).
Proof.
  intros H. unfold Open. unfold_io. rewrite H. reflexivity.
Qed.

(** [Open] in the [default] case of the platform switch. *)
Lemma Open_default_case h path sel info :
  stat h path = inl info ->
  platform U (GOOS h) = None ->
  Open U path sel h = (Some (errors_New "unsupported platform"), [EvStat path]).
Proof.
  intros H1 H2. unfold Open. unfold_io. rewrite H1, H2. reflexivity.
Qed.

(** [Open] on a supported platform: the strategy is called on the
    downgraded selection flag, and its launch spec is started. *)
Lemma Open_supported_case h path sel info f ig bin args pre :
  stat h path = inl info ->
  platform U (GOOS h) = Some (f, ig) ->
  f path (sel && negb (IsDir info)) h = ((bin, args, None), pre) ->
  Open U path sel h =
    (fst (launched h ig bin args),
     EvStat path :: EvBinArgs path (sel && negb (IsDir info)) ::
       pre ++ snd (launched h ig bin args)).
Proof.
  intros H1 H2 H3. unfold Open, launched. unfold_io.
  rewrite H1, H2. simpl. rewrite H3.
  destruct (start h bin args) as [e|]; simpl; [ reflexivity | ].
  destruct (match wait h bin args with
            | inl state => if Success state then None else Some (ExitError state)
            | inr err => Some err
            end) as [e|]; simpl; [ | reflexivity ].
  destruct (isExitError e && ig); reflexivity.
Qed.

(** The three ways [Open] can run. *)
Lemma Open_cases h path sel :
  (exists e, stat h path = inr e /\
     Open U path sel h = (Some (fmt_Errorf statPrefix e), [EvStat path])) \/
  (exists info, stat h path = inl info /\ platform U (GOOS h) = None /\
     Open U path sel h =
       (Some (errors_New "unsupported platform"), [EvStat path])) \/
  (exists info f ig bin args pre,
     stat h path = inl info /\ platform U (GOOS h) = Some (f, ig) /\
     f path (sel && negb (IsDir info)) h = ((bin, args, None), pre) /\
     (pre = [] \/ pre = [EvGetenv XDG]) /\
     Open U path sel h =
       (fst (launched h ig bin args),
        EvStat path :: EvBinArgs path (sel && negb (IsDir info)) ::
          pre ++ snd (launched h ig bin args))).
Proof.
  destruct (stat h path) as [info|e] eqn:Hs.
  - destruct (platform U (GOOS h)) as [[f ig]|] eqn:Hp.
    + right; right.
      destruct (platform_strategy_total _ _ _ path (sel && negb (IsDir info)) h Hp)
        as (bin & args & pre & Hf & Hpre).
      exists info, f, ig, bin, args, pre.
      split; [ reflexivity | split; [ reflexivity | ] ].
      split; [ exact Hf | split; [ exact Hpre | ] ].
      exact (Open_supported_case h path sel info f ig bin args pre Hs Hp Hf).
    + right; left. exists info.
      split; [ reflexivity | split; [ reflexivity | ] ].
      exact (Open_default_case h path sel info Hs Hp).
  - left. exists e. split; [ reflexivity | now apply Open_stat_error ].
Qed.

Lemma launched_events h ig bin args ev :
  In ev (snd (launched h ig bin args)) ->
  ev = EvStart bin args \/ (ev = EvWait bin args /\ start h bin args = None).
Proof.
  unfold launched. destruct (start h bin args); simpl; intuition.
Qed.

(** A process start logged by [Open] is the start of the launch spec the
    selected strategy produced. *)
Lemma Open_start_inv h path sel bin args :
  In (EvStart bin args) (snd (Open U path sel h)) ->
  exists info f ig pre,
    stat h path = inl info /\ platform U (GOOS h) = Some (f, ig) /\
    f path (sel && negb (IsDir info)) h = ((bin, args, None), pre) /\
    fst (Open U path sel h) = fst (launched h ig bin args).
Proof.
  destruct (Open_cases h path sel)
    as [(e & _ & ->) | [(info & _ & _ & ->)
       | (info & f & ig & b & a & pre & Hs & Hp & Hf & Hpre & ->)]];
    simpl; intros Hin.
  - destruct Hin as [Hin|[]]; discriminate.
  - destruct Hin as [Hin|[]]; discriminate.
  - destruct Hin as [Hin|[Hin|Hin]]; try discriminate.
    apply in_app_or in Hin. destruct Hin as [Hin|Hin].
    + destruct Hpre as [-> | ->]; simpl in Hin; [ tauto | ].
      destruct Hin as [Hin|[]]; discriminate.
    + apply launched_events in Hin. destruct Hin as [Hin|[Hin _]]; [ | discriminate ].
      injection Hin as <- <-. exists info, f, ig, pre. auto.
Qed.

Lemma platform_None goos :
  goos <> "windows" -> goos <> "darwin" -> goos <> "linux" ->
  platform U goos = None.
Proof.
  intros Hw Hd Hl. unfold platform.
  apply String.eqb_neq in Hw, Hd, Hl. rewrite Hw, Hd, Hl. reflexivity.
Qed.

Lemma platform_windows : platform U "windows" = Some (windowsExplorerBinArgs, true).
Proof. reflexivity. Qed.

Lemma platform_darwin : platform U "darwin" = Some (darwinExplorerBinArgs, false).
Proof. reflexivity. Qed.

Lemma platform_linux :
  platform U "linux" = Some (linuxExplorerBinArgs U, false).
Proof. reflexivity. Qed.

(** [cmd.Wait] on a process that ended with a non-zero exit code. *)
Lemma cmd_Wait_exit h bin args state :
  wait h bin args = inl state -> ExitCode state <> 0%Z ->
  fst (cmd_Wait bin args h) = Some (ExitError state).
Proof.
  intros Hw Hc. unfold cmd_Wait, Success. simpl. rewrite Hw.
  destruct (Z.eqb_spec (ExitCode state) 0); [ contradiction | reflexivity ].
Qed.

(** C1.  On "windows", a child that started and ended with a non-zero exit
    status makes [Open] return nil, while a failure to start is returned
    wrapped as a process-start error; on "darwin" and "linux" a non-zero
    exit status makes [Open] return the wrapped process-execution error. *)
Theorem Open_exit_code_policy (h : Host) (path : string) (sel : bool) :
  let r := Open U path sel h in
  (GOOS h = "windows" ->
     (forall bin args state,
        In (EvStart bin args) (snd r) -> start h bin args = None ->
        wait h bin args = inl state -> ExitCode state <> 0%Z ->
        fst r = None) /\
     (forall bin args e,
        In (EvStart bin args) (snd r) -> start h bin args = Some e ->
        fst r = Some (fmt_Errorf startPrefix e))) /\
  (GOOS h = "darwin" \/ GOOS h = "linux" ->
     forall bin args state,
       In (EvStart bin args) (snd r) -> start h bin args = None ->
       wait h bin args = inl state -> ExitCode state <> 0%Z ->
       fst r = Some (fmt_Errorf waitPrefix (ExitError state))).
Proof.
  intros r. subst r. split.
  - intros Hos. split.
    + intros bin args state Hin Hst Hw Hc.
      destruct (Open_start_inv _ _ _ _ _ Hin) as (info & f & ig & pre & _ & Hp & _ & ->).
      rewrite Hos, platform_windows in Hp. injection Hp as <- <-.
      unfold launched. rewrite Hst. cbn [fst].
      rewrite (cmd_Wait_exit _ _ _ _ Hw Hc). reflexivity.
    + intros bin args e Hin Hst.
      destruct (Open_start_inv _ _ _ _ _ Hin) as (info & f & ig & pre & _ & _ & _ & ->).
      unfold launched. rewrite Hst. reflexivity.
  - intros Hos bin args state Hin Hst Hw Hc.
    destruct (Open_start_inv _ _ _ _ _ Hin) as (info & f & ig & pre & _ & Hp & _ & ->).
    assert (ig = false) as ->.
    { destruct Hos as [Hos|Hos]; rewrite Hos in Hp;
        [ rewrite platform_darwin in Hp | rewrite platform_linux in Hp ];
        now injection Hp as <- <-. }
    unfold launched. rewrite Hst. cbn [fst].
    rewrite (cmd_Wait_exit _ _ _ _ Hw Hc). reflexivity.
Qed.

(** C4.  When [os.Stat] fails on the path, [Open] returns the wrapped
    path-access error and the only thing it has done is the stat call: no
    strategy was called, no environment read, no process started. *)
Theorem Open_stat_failure (h : Host) (path : string) (sel : bool) (e : error)
    (Hstat : stat h path = inr e) :
  Open U path sel h = (Some (fmt_Errorf statPrefix e), [EvStat path]).
Proof. exact (Open_stat_error h path sel e Hstat). Qed.

(** On an existing directory the marker of the strategy call carries
    [false], and the run is the run with [selectFile = false]. *)
Lemma Open_directory_marker (h : Host) (path : string)
    (info : FileInfo) (Hstat : stat h path = inl info)
    (Hdir : IsDir info = true) :
  (forall p s, In (EvBinArgs p s) (snd (Open U path true h)) ->
               p = path /\ s = false) /\
  (GOOS h = "windows" \/ GOOS h = "darwin" \/ GOOS h = "linux" ->
   In (EvBinArgs path false) (snd (Open U path true h))) /\
  Open U path true h = Open U path false h.
Proof.
  assert (Hrun : Open U path true h = Open U path false h).
  { unfold Open. unfold_io. rewrite Hstat, Hdir. reflexivity. }
  destruct (Open_cases h path true)
    as [(e & He & _) | [(i & _ & Hp & Heq)
       | (i & f & ig & b & a & pre & Hs & Hp & Hf & Hpre & Heq)]].
  - congruence.
  - split; [ | split; [ | exact Hrun ] ].
    + intros p s Hin. rewrite Heq in Hin.
      destruct Hin as [Hin|[]]; discriminate.
    + intros Hos. exfalso. revert Hp.
      destruct Hos as [-> | [-> | ->]]; discriminate.
  - assert (i = info) as -> by congruence.
    rewrite Hdir in Heq. simpl in Heq.
    split; [ | split; [ | exact Hrun ] ].
    + intros p s Hin. rewrite Heq in Hin. simpl in Hin.
      destruct Hin as [Hin|[Hin|Hin]]; try discriminate.
      * injection Hin as <- <-. auto.
      * apply in_app_or in Hin. destruct Hin as [Hin|Hin].
        -- destruct Hpre as [-> | ->]; simpl in Hin; [ tauto | ].
           destruct Hin as [Hin|[]]; discriminate.
        -- apply launched_events in Hin.
           destruct Hin as [Hin|[Hin _]]; discriminate.
    + intros _. rewrite Heq. simpl. auto.
Qed.

(** C8 (as amended).  On an operating-system identity other than
    "windows", "darwin" and "linux", [Open] starts no process whatever the
    path, and on a path that [os.Stat] accepts it returns the error
    "unsupported platform" having done nothing but the stat call. *)
Theorem Open_unsupported_platform (h : Host) (path : string) (sel : bool)
    (Hw : GOOS h <> "windows") (Hd : GOOS h <> "darwin")
    (Hl : GOOS h <> "linux") :
  (forall info, stat h path = inl info ->
     Open U path sel h =
       (Some (errors_New "unsupported platform"), [EvStat path])) /\
  (forall bin args, ~ In (EvStart bin args) (snd (Open U path sel h))).
Proof.
  pose proof (platform_None (GOOS h) Hw Hd Hl) as Hp.
  split.
  - intros info Hs. exact (Open_default_case h path sel info Hs Hp).
  - intros bin args Hin.
    destruct (Open_start_inv _ _ _ _ _ Hin) as (info & f & ig & pre & _ & Hp' & _).
    congruence.
Qed.

(** What [linuxExplorerBinArgs] returns, by the normalized identifier. *)
Lemma linuxExplorerBinArgs_run h path sel :
  linuxExplorerBinArgs U path sel h =
    (fst (linuxDispatch (normalize U (environ h XDG)) path sel h),
     [EvGetenv XDG]).
Proof.
  unfold linuxExplorerBinArgs, linuxDispatch, XDG. unfold_io.
  generalize (normalize U (environ h "XDG_CURRENT_DESKTOP")). intros de.
  string_cases; reflexivity.
Qed.

Lemma linuxDispatch_fallback de :
  ~ In de desktopNames -> linuxDispatch de = linuxFallbackExplorerBinArgs.
Proof.
  unfold desktopNames, linuxDispatch. simpl. intros H.
  string_cases; try reflexivity; exfalso; apply H; tauto.
Qed.

Lemma asciiSpace_below_RuneSelf c :
  asciiSpace c = true -> (RuneSelf <=? nat_of_ascii c) = false.
Proof.
  unfold asciiSpace, RuneSelf. intros H. apply Nat.leb_gt.
  repeat (apply orb_true_iff in H; destruct H as [H|H]);
    apply Nat.eqb_eq in H; lia.
Qed.

Lemma TrimSpace_skip l rest :
  asciiPadding l = true ->
  TrimSpace U (string_of_list_ascii (l ++ rest)) =
  TrimSpace U (string_of_list_ascii rest).
Proof.
  unfold asciiPadding.
  induction l as [|c l IH];
    cbn [forallb app string_of_list_ascii TrimSpace]; [ reflexivity | ].
  intros H. apply andb_true_iff in H. destruct H as [Hc Hl].
  now rewrite (asciiSpace_below_RuneSelf c Hc), Hc, (IH Hl).
Qed.

Lemma scanStop_skip l rest :
  asciiPadding l = true -> scanStop (l ++ rest) = scanStop rest.
Proof.
  unfold asciiPadding.
  induction l as [|c l IH]; cbn [forallb app scanStop]; [ reflexivity | ].
  intros H. apply andb_true_iff in H. destruct H as [Hc Hl].
  now rewrite (asciiSpace_below_RuneSelf c Hc), Hc, (IH Hl).
Qed.

Lemma asciiPadding_rev l : asciiPadding l = true -> asciiPadding (rev l) = true.
Proof.
  unfold asciiPadding. rewrite !forallb_forall.
  intros H c Hc. apply H. now apply in_rev.
Qed.

Lemma scanStop_word l :
  forallb (fun c => nat_of_ascii c <? RuneSelf) l = true ->
  noSpaceAhead l = true -> scanStop l = inl l.
Proof.
  destruct l as [|c l]; cbn [forallb noSpaceAhead scanStop]; [ reflexivity | ].
  intros H Hc. apply andb_true_iff in H. destruct H as [H _].
  apply Nat.ltb_lt in H. apply negb_true_iff in Hc.
  destruct (Nat.leb_spec RuneSelf (nat_of_ascii c)); [ lia | ].
  now rewrite Hc.
Qed.

Lemma forallb_rev {A} (p : A -> bool) l :
  forallb p l = true -> forallb p (rev l) = true.
Proof.
  rewrite !forallb_forall. intros H c Hc. apply H. now apply in_rev.
Qed.

Lemma trimStop_word core r :
  asciiWord core = true -> asciiPadding r = true ->
  trimStop U (string_of_list_ascii (core ++ r)) = string_of_list_ascii core.
Proof.
  unfold asciiWord, trimStop. intros Hw Hr.
  apply andb_true_iff in Hw. destruct Hw as [Hw Hlast].
  apply andb_true_iff in Hw. destruct Hw as [Hascii _].
  rewrite list_ascii_of_string_of_list_ascii, rev_app_distr.
  rewrite (scanStop_skip _ _ (asciiPadding_rev _ Hr)).
  rewrite (scanStop_word _ (forallb_rev _ _ Hascii) Hlast).
  now rewrite rev_involutive.
Qed.

(** [TrimSpace] removes ASCII white space around an ASCII word. *)
Lemma TrimSpace_padded l core r :
  asciiPadding l = true -> asciiWord core = true -> asciiPadding r = true ->
  TrimSpace U (string_of_list_ascii (l ++ core ++ r)) =
  string_of_list_ascii core.
Proof.
  intros Hl Hw Hr. rewrite (TrimSpace_skip _ _ Hl).
  destruct core as [|c core].
  - simpl. rewrite <- (app_nil_r r), (TrimSpace_skip _ _ Hr). reflexivity.
  - pose proof (trimStop_word _ _ Hw Hr) as Ht.
    unfold asciiWord in Hw.
    apply andb_true_iff in Hw. destruct Hw as [Hw _].
    apply andb_true_iff in Hw. destruct Hw as [Hascii Hc].
    cbn [forallb noSpaceAhead] in Hascii, Hc.
    apply andb_true_iff in Hascii. destruct Hascii as [Hlt _].
    apply Nat.ltb_lt in Hlt. apply negb_true_iff in Hc.
    change (string_of_list_ascii ((c :: core) ++ r))
      with (String c (string_of_list_ascii (core ++ r))) in *.
    cbn [TrimSpace].
    destruct (Nat.leb_spec RuneSelf (nat_of_ascii c)); [ lia | ].
    rewrite Hc. exact Ht.
Qed.

(** On such an identifier the normalized value is the word, upper-cased
    byte by byte. *)
Lemma normalize_padded l core r :
  asciiPadding l = true -> asciiWord core = true -> asciiPadding r = true ->
  normalize U (string_of_list_ascii (l ++ core ++ r)) =
  mapBytes upperByte (string_of_list_ascii core).
Proof.
  intros Hl Hw Hr. unfold normalize.
  rewrite (TrimSpace_padded _ _ _ Hl Hw Hr).
  unfold ToUpper, isASCII. rewrite list_ascii_of_string_of_list_ascii.
  unfold asciiWord in Hw.
  apply andb_true_iff in Hw. destruct Hw as [Hw _].
  apply andb_true_iff in Hw. destruct Hw as [-> _].
  reflexivity.
Qed.

Lemma normalize_gnome : normalize U "  gnome  " = "GNOME".
Proof. reflexivity. Qed.

(** C2.  [linuxExplorerBinArgs] reads XDG_CURRENT_DESKTOP, normalizes it
    with [TrimSpace] then [ToUpper], and resolves the executable from the
    normalized value by the table; for an ASCII word between runs of
    ASCII white space the normalized value is the word in upper case; with
    the value "  gnome  " and no selection it resolves to nautilus on
    [Dir path]. *)
Theorem linuxExplorerBinArgs_dispatch (h : Host) (path : string) (sel : bool) :
  let de := ToUpper U (TrimSpace U (environ h "XDG_CURRENT_DESKTOP")) in
  let r := linuxExplorerBinArgs U path sel h in
  let bin := fst (fst (fst r)) in
  snd r = [EvGetenv "XDG_CURRENT_DESKTOP"] /\
  (de = "CINNAMON" \/ de = "X-CINNAMON" -> bin = "nemo") /\
  (de = "GNOME" \/ de = "GNOME-FLASHBACK" \/ de = "GNOME-FLASHBACK:GNOME" ->
   bin = "nautilus") /\
  (de = "KDE" -> bin = "dolphin") /\
  (de = "LXQT" -> bin = "pcmanfm-qt") /\
  (de = "MATE" -> bin = "caja") /\
  (de = "XFCE" -> bin = "thunar") /\
  (~ In de desktopNames -> bin = "xdg-open") /\
  (de = EmptyString -> bin = "xdg-open") /\
  (forall l word r,
     asciiPadding l = true -> asciiWord word = true -> asciiPadding r = true ->
     environ h "XDG_CURRENT_DESKTOP" = string_of_list_ascii (l ++ word ++ r) ->
     de = mapBytes upperByte (string_of_list_ascii word)) /\
  (environ h "XDG_CURRENT_DESKTOP" = "  gnome  " ->
   linuxExplorerBinArgs U path false h =
     (("nautilus", [Dir path], None), [EvGetenv "XDG_CURRENT_DESKTOP"])).
Proof.
  intros de r bin. subst bin r.
  rewrite !linuxExplorerBinArgs_run. unfold XDG.
  assert (Hgnome : environ h "XDG_CURRENT_DESKTOP" = "  gnome  " ->
                   normalize U (environ h "XDG_CURRENT_DESKTOP") = "GNOME")
    by (intros ->; apply normalize_gnome).
  assert (Hpad : forall l word r,
             asciiPadding l = true -> asciiWord word = true ->
             asciiPadding r = true ->
             environ h "XDG_CURRENT_DESKTOP" =
               string_of_list_ascii (l ++ word ++ r) ->
             normalize U (environ h "XDG_CURRENT_DESKTOP") =
               mapBytes upperByte (string_of_list_ascii word))
    by (intros l word r Hl Hw Hr ->; now apply normalize_padded).
  change (normalize U (environ h "XDG_CURRENT_DESKTOP")) with de in *.
  clearbody de.
  split; [ reflexivity | ].
  repeat split.
  - intros [H|H]; rewrite H; reflexivity.
  - intros [H|[H|H]]; rewrite H; reflexivity.
  - intros H; rewrite H; reflexivity.
  - intros H; rewrite H; reflexivity.
  - intros H; rewrite H; reflexivity.
  - intros H; rewrite H; reflexivity.
  - intros H. rewrite (linuxDispatch_fallback _ H). reflexivity.
  - intros H; rewrite H; reflexivity.
  - exact Hpad.
  - intros H. rewrite (Hgnome H). reflexivity.
Qed.

Lemma Dir_example : Dir "/home/user/doc.txt" = "/home/user".
Proof. reflexivity. Qed.

(** C3.  Each named Linux strategy passes [Dir path] when selection is not
    requested and [path] itself when it is; the fallback passes [Dir path]
    whatever the selection flag; the same holds through the dispatch of
    [linuxExplorerBinArgs]; and with an unrecognized identifier,
    selection requested and path /home/user/doc.txt the launch spec is
    xdg-open on /home/user. *)
Theorem linux_strategy_arguments (h : Host) (path : string) :
  (forall name f, In (name, f) namedStrategies ->
     f path false h = ((name, [Dir path], None), []) /\
     f path true h = ((name, [path], None), [])) /\
  (forall sel,
     linuxFallbackExplorerBinArgs path sel h =
       (("xdg-open", [Dir path], None), [])) /\
  (forall sel,
     In (normalize U (environ h XDG)) desktopNames ->
     snd (fst (fst (linuxExplorerBinArgs U path sel h))) =
       [if sel then path else Dir path]) /\
  (forall sel,
     ~ In (normalize U (environ h XDG)) desktopNames ->
     fst (linuxExplorerBinArgs U path sel h) =
       ("xdg-open", [Dir path], None)) /\
  (~ In (normalize U (environ h XDG)) desktopNames ->
   linuxExplorerBinArgs U "/home/user/doc.txt" true h =
     (("xdg-open", ["/home/user"], None), [EvGetenv XDG])).
Proof.
  split; [ | split; [ | split; [ | split ] ] ].
  - intros name f Hin. simpl in Hin.
    repeat (destruct Hin as [Hin|Hin];
            [ injection Hin as <- <-; split; reflexivity | ]).
    contradiction.
  - reflexivity.
  - intros sel Hin. rewrite linuxExplorerBinArgs_run. simpl in Hin.
    repeat (destruct Hin as [Hin|Hin];
            [ rewrite <- Hin; destruct sel; reflexivity | ]).
    contradiction.
  - intros sel H. rewrite linuxExplorerBinArgs_run.
    rewrite (linuxDispatch_fallback _ H). reflexivity.
  - intros H. rewrite linuxExplorerBinArgs_run.
    rewrite (linuxDispatch_fallback _ H). reflexivity.
Qed.

(** C6.  [windowsExplorerBinArgs] resolves to "explorer" with exactly one
    argument: with selection, the bytes of [/select,], a double quote
    (byte 34), the bytes of the path and a closing double quote; without,
    the path. *)
Theorem windowsExplorerBinArgs_spec (h : Host) (path : string) (sel : bool) :
  exists arg,
    windowsExplorerBinArgs path sel h = (("explorer", [arg], None), []) /\
    list_ascii_of_string arg =
      (if sel
       then list_ascii_of_string "/select," ++ [ascii_of_nat 34]
              ++ list_ascii_of_string path ++ [ascii_of_nat 34]
       else list_ascii_of_string path).
Proof.
  destruct sel.
  - exists (selectToken path). split; [ reflexivity | ].
    unfold selectToken. simpl. repeat f_equal.
    induction path as [|c t IH]; simpl; [ reflexivity | now rewrite IH ].
  - exists path. split; reflexivity.
Qed.

(** C7.  [darwinExplorerBinArgs] resolves to "open", with the arguments
    [-R] then the path when selection is requested and the path alone
    otherwise; on /Users/a/file.txt with selection that is
    open -R /Users/a/file.txt. *)
Theorem darwinExplorerBinArgs_spec (h : Host) (path : string) (sel : bool) :
  darwinExplorerBinArgs path sel h =
    (("open", if sel then ["-R"; path] else [path], None), []) /\
  darwinExplorerBinArgs "/Users/a/file.txt" true h =
    (("open", ["-R"; "/Users/a/file.txt"], None), []).
Proof. destruct sel; split; reflexivity. Qed.

Lemma linuxDispatch_nil_error de path sel h :
  snd (fst (linuxDispatch de path sel h)) = None.
Proof. unfold linuxDispatch. string_cases; reflexivity. Qed.

Lemma prefix_clash (a b : string) :
  (statPrefix ++ a)%string <> (binPrefix ++ b)%string /\
  (startPrefix ++ a)%string <> (binPrefix ++ b)%string /\
  (waitPrefix ++ a)%string <> (binPrefix ++ b)%string.
Proof. repeat split; simpl; discriminate. Qed.

Lemma fmt_Errorf_inj p1 e1 p2 e2 :
  Some (fmt_Errorf p1 e1) = Some (fmt_Errorf p2 e2) ->
  (p1 ++ Error e1)%string = (p2 ++ Error e2)%string.
Proof. unfold fmt_Errorf. intros H. now injection H. Qed.

(** C9.  Every strategy function returns a nil error on every input, the
    strategy selected by the platform switch included, and [Open] never
    returns the error of its strategy-resolution branch. *)
Theorem strategies_never_fail (h : Host) (path : string) (sel : bool) :
  Forall (fun f : explorerBinArgs => snd (fst (f path sel h)) = None)
    [windowsExplorerBinArgs; darwinExplorerBinArgs;
     linuxCinnamonExplorerBinArgs; linuxGnomeExplorerBinArgs;
     linuxKdeExplorerBinArgs; linuxLxqtExplorerBinArgs;
     linuxMateExplorerBinArgs; linuxXfceExplorerBinArgs;
     linuxFallbackExplorerBinArgs; linuxExplorerBinArgs U] /\
  (forall de, snd (fst (linuxDispatch de path sel h)) = None) /\
  (forall goos,
     match platform U goos with
     | Some (f, _) => snd (fst (f path sel h)) = None
     | None => True
     end) /\
  (forall e, fst (Open U path sel h) <> Some (fmt_Errorf binPrefix e)).
Proof.
  split; [ | split; [ | split ] ].
  - repeat constructor.
    rewrite linuxExplorerBinArgs_run. apply linuxDispatch_nil_error.
  - intros de. apply linuxDispatch_nil_error.
  - intros goos. destruct (platform U goos) as [[f ig]|] eqn:Hp; [ | exact I ].
    destruct (platform_strategy_total _ _ _ path sel h Hp)
      as (bin & args & pre & -> & _).
    reflexivity.
  - intros e.
    destruct (Open_cases h path sel)
      as [(e0 & _ & ->) | [(info & _ & _ & ->)
         | (info & f & ig & b & a & pre & _ & _ & _ & _ & ->)]];
      simpl fst.
    + intros H. apply fmt_Errorf_inj in H.
      now apply (prefix_clash (Error e0) (Error e)) in H.
    + discriminate.
    + unfold launched. destruct (start h b a) as [e1|].
      * simpl fst. intros H. apply fmt_Errorf_inj in H.
        now apply (prefix_clash (Error e1) (Error e)) in H.
      * cbn [fst]. destruct (fst (cmd_Wait b a h)) as [e1|]; [ | discriminate ].
        destruct (isExitError e1 && ig); [ discriminate | ].
        intros H. apply fmt_Errorf_inj in H.
        now apply (prefix_clash (Error e1) (Error e)) in H.
Qed.

Lemma linuxDispatch_no_selection de path h :
  exists bin, fst (linuxDispatch de path false h) = (bin, [Dir path], None).
Proof. unfold linuxDispatch. string_cases; eexists; reflexivity. Qed.

(** The process start of a run, from the strategy the platform switch
    selects applied to the downgraded flag. *)
Lemma Open_run_starts h path sel info f ig :
  stat h path = inl info ->
  platform U (GOOS h) = Some (f, ig) ->
  starts (snd (Open U path sel h)) =
    [EvStart (fst (fst (fst (f path (sel && negb (IsDir info)) h))))
             (snd (fst (fst (f path (sel && negb (IsDir info)) h))))].
Proof.
  intros Hs Hp.
  destruct (platform_strategy_total _ _ _ path (sel && negb (IsDir info)) h Hp)
    as (bin & args & pre & Hf & Hpre).
  rewrite (Open_supported_case h path sel info f ig bin args pre Hs Hp Hf), Hf.
  unfold starts. simpl. rewrite filter_app.
  destruct Hpre as [-> | ->]; unfold launched;
    destruct (start h bin args); reflexivity.
Qed.

(** C5.  On an existing directory with [selectFile = true], the strategy
    selected by the platform switch is applied to [selectFile = false]:
    the launch spec [Open] starts is the one that strategy returns on
    [false], which is explorer on the bare path on "windows", open on the
    path without [-R] on "darwin", and a file manager on [Dir path] on
    "linux"; the marker of the call carries [false]; and the whole run is
    the run with [selectFile = false]. *)
Theorem Open_directory_downgrades_selection (h : Host) (path : string)
    (info : FileInfo) (Hstat : stat h path = inl info)
    (Hdir : IsDir info = true) :
  (forall p s, In (EvBinArgs p s) (snd (Open U path true h)) ->
               p = path /\ s = false) /\
  (GOOS h = "windows" \/ GOOS h = "darwin" \/ GOOS h = "linux" ->
   In (EvBinArgs path false) (snd (Open U path true h))) /\
  Open U path true h = Open U path false h /\
  (forall f ig, platform U (GOOS h) = Some (f, ig) ->
     starts (snd (Open U path true h)) =
       [EvStart (fst (fst (fst (f path false h))))
                (snd (fst (fst (f path false h))))]) /\
  (GOOS h = "windows" ->
   starts (snd (Open U path true h)) = [EvStart "explorer" [path]]) /\
  (GOOS h = "darwin" ->
   starts (snd (Open U path true h)) = [EvStart "open" [path]]) /\
  (GOOS h = "linux" ->
   exists bin,
     starts (snd (Open U path true h)) = [EvStart bin [Dir path]]).
Proof.
  destruct (Open_directory_marker h path info Hstat Hdir) as (H1 & H2 & H3).
  assert (Hst : forall f ig, platform U (GOOS h) = Some (f, ig) ->
            starts (snd (Open U path true h)) =
              [EvStart (fst (fst (fst (f path false h))))
                       (snd (fst (fst (f path false h))))]).
  { intros f ig Hp.
    rewrite (Open_run_starts h path true info f ig Hstat Hp), Hdir.
    reflexivity. }
  split; [ exact H1 | split; [ exact H2 | split; [ exact H3 | ] ] ].
  split; [ exact Hst | split; [ | split ] ].
  - intros Hos. rewrite Hos in Hst.
    exact (Hst _ _ platform_windows).
  - intros Hos. rewrite Hos in Hst.
    exact (Hst _ _ platform_darwin).
  - intros Hos. rewrite Hos in Hst.
    destruct (linuxDispatch_no_selection (normalize U (environ h XDG)) path h)
      as (bin & Hbin).
    exists bin. rewrite (Hst _ _ platform_linux).
    rewrite linuxExplorerBinArgs_run, Hbin. reflexivity.
Qed.


End Properties.

(** * Concrete runs *)

Lemma Open_exit_code_policy_witness :
  fst (Open asciiOnly doc true (homeHost "windows" EmptyString [] 1)) = None /\
  fst (Open asciiOnly doc true (homeHost "windows" EmptyString ["explorer"] 0)) =
    Some (fmt_Errorf startPrefix
            (errorString "exec: explorer: executable file not found")) /\
  fst (Open asciiOnly doc true (homeHost "darwin" EmptyString [] 1)) =
    Some (fmt_Errorf waitPrefix (ExitError (okState 1))) /\
  fst (Open asciiOnly doc true (homeHost "linux" "KDE" [] 2)) =
    Some (fmt_Errorf waitPrefix (ExitError (okState 2))).
Proof.
  split; [ | split; [ | split ] ].
  - apply (proj1 (proj1 (Open_exit_code_policy asciiOnly
                           (homeHost "windows" EmptyString [] 1) doc true)
                    eq_refl)
             "explorer" [selectToken doc] (okState 1));
      [ vm_compute; tauto | reflexivity | reflexivity | discriminate ].
  - apply (proj2 (proj1 (Open_exit_code_policy asciiOnly
                           (homeHost "windows" EmptyString ["explorer"] 0)
                           doc true)
                    eq_refl)
             "explorer" [selectToken doc]);
      [ vm_compute; tauto | reflexivity ].
  - apply (proj2 (Open_exit_code_policy asciiOnly
                    (homeHost "darwin" EmptyString [] 1) doc true)
             (or_introl eq_refl) "open" ["-R"; doc] (okState 1));
      [ vm_compute; tauto | reflexivity | reflexivity | discriminate ].
  - apply (proj2 (Open_exit_code_policy asciiOnly
                    (homeHost "linux" "KDE" [] 2) doc true)
             (or_intror eq_refl) "dolphin" [doc] (okState 2));
      [ vm_compute; tauto | reflexivity | reflexivity | discriminate ].
Defined.

Lemma Open_stat_failure_witness :
  Open asciiOnly "/no/such/file" true (homeHost "linux" "GNOME" [] 0) =
    (Some (fmt_Errorf statPrefix
             (errorString "stat /no/such/file: no such file or directory")),
     [EvStat "/no/such/file"]).
Proof.
  apply (Open_stat_failure asciiOnly (homeHost "linux" "GNOME" [] 0)
           "/no/such/file" true).
  reflexivity.
Defined.

Lemma Open_directory_downgrades_selection_witness :
  In (EvBinArgs "/home/user" false)
     (snd (Open asciiOnly "/home/user" true (homeHost "darwin" EmptyString [] 0))) /\
  Open asciiOnly "/home/user" true (homeHost "darwin" EmptyString [] 0) =
    Open asciiOnly "/home/user" false (homeHost "darwin" EmptyString [] 0) /\
  starts (snd (Open asciiOnly "/home/user" true
                 (homeHost "darwin" EmptyString [] 0))) =
    [EvStart "open" ["/home/user"]] /\
  starts (snd (Open asciiOnly "/home/user" true
                 (homeHost "windows" EmptyString [] 0))) =
    [EvStart "explorer" ["/home/user"]] /\
  (exists bin,
     starts (snd (Open asciiOnly "/home/user" true
                    (homeHost "linux" "GNOME" [] 0))) =
       [EvStart bin ["/home"]]).
Proof.
  pose (T := fun goos desktop =>
          Open_directory_downgrades_selection asciiOnly
            (homeHost goos desktop [] 0) "/home/user"
            {| IsDir := true |} eq_refl eq_refl).
  destruct (T "darwin" EmptyString) as (_ & H1 & H2 & _ & _ & H3 & _).
  destruct (T "windows" EmptyString) as (_ & _ & _ & _ & H4 & _).
  destruct (T "linux" "GNOME") as (_ & _ & _ & _ & _ & _ & H5).
  split; [ apply H1; right; left; reflexivity | ].
  split; [ exact H2 | ].
  split; [ apply H3; reflexivity | ].
  split; [ apply H4; reflexivity | ].
  apply H5. reflexivity.
Defined.

Lemma linuxExplorerBinArgs_dispatch_witness :
  (binFor " x-cinnamon" = "nemo" /\ binFor "Gnome-Flashback:GNOME" = "nautilus" /\
   binFor "kde " = "dolphin" /\ binFor "LXQt" = "pcmanfm-qt" /\
   binFor "mate" = "caja" /\ binFor "XFCE" = "thunar" /\
   binFor "sway" = "xdg-open" /\ binFor EmptyString = "xdg-open") /\
  ToUpper asciiOnly (TrimSpace asciiOnly "  gnome  ") = "GNOME" /\
  linuxExplorerBinArgs asciiOnly doc false (homeHost "linux" "  gnome  " [] 0) =
    (("nautilus", ["/home/user"], None), [EvGetenv "XDG_CURRENT_DESKTOP"]).
Proof.
  pose (T := fun desktop =>
          linuxExplorerBinArgs_dispatch asciiOnly
            (homeHost "linux" desktop [] 0) doc false).
  split; [ split; [ | split; [ | split; [ | split; [ | split;
           [ | split; [ | split ] ] ] ] ] ] | split ].
  - destruct (T " x-cinnamon") as (_ & H & _). apply H. right. reflexivity.
  - destruct (T "Gnome-Flashback:GNOME") as (_ & _ & H & _).
    apply H. right. right. reflexivity.
  - destruct (T "kde ") as (_ & _ & _ & H & _). apply H. reflexivity.
  - destruct (T "LXQt") as (_ & _ & _ & _ & H & _). apply H. reflexivity.
  - destruct (T "mate") as (_ & _ & _ & _ & _ & H & _). apply H. reflexivity.
  - destruct (T "XFCE") as (_ & _ & _ & _ & _ & _ & H & _). apply H. reflexivity.
  - destruct (T "sway") as (_ & _ & _ & _ & _ & _ & _ & H & _). apply H.
    vm_compute. intuition discriminate.
  - destruct (T EmptyString) as (_ & _ & _ & _ & _ & _ & _ & _ & H & _).
    apply H. reflexivity.
  - destruct (T "  gnome  ") as (_ & _ & _ & _ & _ & _ & _ & _ & _ & H & _).
    apply (H (list_ascii_of_string "  ") (list_ascii_of_string "gnome")
             (list_ascii_of_string "  ")); reflexivity.
  - destruct (T "  gnome  ") as (_ & _ & _ & _ & _ & _ & _ & _ & _ & _ & H).
    apply H. reflexivity.
Defined.

Lemma linux_strategy_arguments_witness :
  (linuxKdeExplorerBinArgs doc false (homeHost "linux" "KDE" [] 0) =
     (("dolphin", ["/home/user"], None), []) /\
   linuxKdeExplorerBinArgs doc true (homeHost "linux" "KDE" [] 0) =
     (("dolphin", [doc], None), [])) /\
  snd (fst (fst (linuxExplorerBinArgs asciiOnly doc true
                   (homeHost "linux" " mate " [] 0)))) = [doc] /\
  linuxExplorerBinArgs asciiOnly doc true (homeHost "linux" "Unity" [] 0) =
    (("xdg-open", ["/home/user"], None), [EvGetenv XDG]).
Proof.
  split; [ | split ].
  - destruct (linux_strategy_arguments asciiOnly
                (homeHost "linux" "KDE" [] 0) doc) as (H & _).
    apply (H "dolphin" linuxKdeExplorerBinArgs).
    right. right. left. reflexivity.
  - destruct (linux_strategy_arguments asciiOnly
                (homeHost "linux" " mate " [] 0) doc) as (_ & _ & H & _).
    apply (H true). vm_compute. tauto.
  - destruct (linux_strategy_arguments asciiOnly
                (homeHost "linux" "Unity" [] 0) doc) as (_ & _ & _ & _ & H).
    apply H. vm_compute. intuition discriminate.
Defined.

Lemma Open_unsupported_platform_witness :
  Open asciiOnly doc true (homeHost "freebsd" "GNOME" [] 0) =
    (Some (errors_New "unsupported platform"), [EvStat doc]) /\
  ~ In (EvStart "nautilus" [doc])
      (snd (Open asciiOnly doc true (homeHost "freebsd" "GNOME" [] 0))).
Proof.
  destruct (Open_unsupported_platform asciiOnly
              (homeHost "freebsd" "GNOME" [] 0) doc true)
    as (H1 & H2); try (simpl; discriminate).
  split; [ apply (H1 {| IsDir := false |}); reflexivity | apply H2 ].
Defined.

(** C8 as stated fails: on an unsupported platform and a path that cannot
    be stat'd, the error [Open] returns is the path-access error. *)
Lemma Open_unsupported_platform_counterexample :
  GOOS (homeHost "freebsd" "GNOME" [] 0) <> "windows" /\
  GOOS (homeHost "freebsd" "GNOME" [] 0) <> "darwin" /\
  GOOS (homeHost "freebsd" "GNOME" [] 0) <> "linux" /\
  fst (Open asciiOnly "/no/such/file" true (homeHost "freebsd" "GNOME" [] 0)) =
    Some (fmt_Errorf statPrefix
            (errorString "stat /no/such/file: no such file or directory")) /\
  fst (Open asciiOnly "/no/such/file" true (homeHost "freebsd" "GNOME" [] 0)) <>
    Some (errors_New "unsupported platform").
Proof.
  repeat split; try (simpl; discriminate).
Qed.



(** * Further properties of [Open] *)

Section OpenRuns.

Variable U : UnicodeTables.

Lemma platform_supported goos :
  platform U goos <> None <->
  goos = "windows" \/ goos = "darwin" \/ goos = "linux".
Proof.
  unfold platform. split.
  - string_cases; auto. intros H; now elim H.
  - intros [-> | [-> | ->]]; discriminate.
Qed.

(** The environment is read by the "linux" strategy and by no other. *)
Lemma platform_strategy_env goos f ig path sel h :
  platform U goos = Some (f, ig) ->
  snd (f path sel h) = if (goos =? "linux")%string then [EvGetenv XDG] else [].
Proof.
  unfold platform.
  destruct (String.eqb_spec goos "windows") as [-> | _];
    [ intros H; injection H as <- <-; reflexivity | ].
  destruct (String.eqb_spec goos "darwin") as [-> | _];
    [ intros H; injection H as <- <-; reflexivity | ].
  destruct (String.eqb_spec goos "linux") as [-> | _]; [ | discriminate ].
  intros H; injection H as <- <-.
  now rewrite linuxExplorerBinArgs_run.
Qed.

(** X1.  The host calls of [Open] come in a fixed order: the stat call
    first; then, if anything at all, the strategy call, one read of
    XDG_CURRENT_DESKTOP on "linux" and none elsewhere, one process start,
    and one wait on that process exactly when it started. *)
Theorem Open_call_order (h : Host) (path : string) (sel : bool) :
  snd (Open U path sel h) = [EvStat path] \/
  exists s env bin args,
    env = (if (GOOS h =? "linux")%string then [EvGetenv XDG] else []) /\
    snd (Open U path sel h) =
      EvStat path :: EvBinArgs path s :: env ++
        EvStart bin args ::
        match start h bin args with
        | None => [EvWait bin args]
        | Some _ => []
        end.
Proof.
  destruct (Open_cases U h path sel)
    as [(e & _ & ->) | [(info & _ & _ & ->)
       | (info & f & ig & b & a & pre & Hs & Hp & Hf & _ & ->)]].
  - now left.
  - now left.
  - right. exists (sel && negb (IsDir info)), pre, b, a.
    pose proof (platform_strategy_env _ _ _ path (sel && negb (IsDir info)) h Hp)
      as Henv.
    rewrite Hf in Henv. simpl in Henv. split; [ exact Henv | ].
    unfold launched. destruct (start h b a); reflexivity.
Qed.

(** X2.  [Open] calls [cmd.Start] exactly when the stat call succeeds
    and the platform is one of the three supported ones, and then it calls
    it exactly once; whether the process then starts is the host's answer
    to that call. *)
Theorem Open_starts_iff (h : Host) (path : string) (sel : bool) :
  ((exists bin args, In (EvStart bin args) (snd (Open U path sel h))) <->
   (exists info, stat h path = inl info) /\
   (GOOS h = "windows" \/ GOOS h = "darwin" \/ GOOS h = "linux")) /\
  List.length (starts (snd (Open U path sel h))) <= 1.
Proof.
  destruct (Open_cases U h path sel)
    as [(e & He & Heq) | [(info & Hs & Hp & Heq)
       | (info & f & ig & b & a & pre & Hs & Hp & Hf & Hpre & Heq)]];
    rewrite Heq; simpl snd.
  - split; [ split | simpl; lia ].
    + intros (bin & args & [H|[]]). discriminate.
    + intros ((info & Hs) & _). congruence.
  - split; [ split | simpl; lia ].
    + intros (bin & args & [H|[]]). discriminate.
    + intros (_ & Hos). apply platform_supported in Hos. contradiction.
  - assert (Hl : exists tl, snd (launched h ig b a) = EvStart b a :: tl /\
                            starts tl = [])
      by (unfold launched; destruct (start h b a); eexists; split; reflexivity).
    destruct Hl as (tl & -> & Htl).
    split; [ split | ].
    + intros _. split; [ eauto | ].
      apply platform_supported. congruence.
    + intros _. exists b, a. right. right. apply in_or_app. right. now left.
    + unfold starts in *. simpl. rewrite filter_app. simpl. rewrite Htl.
      destruct Hpre as [-> | ->]; simpl; lia.
Qed.

(** The result of [Open] once its process is known. *)
Lemma Open_result_of_start h path sel bin args :
  In (EvStart bin args) (snd (Open U path sel h)) ->
  exists ig,
    platform U (GOOS h) <> None /\
    (ig = true <-> GOOS h = "windows") /\
    fst (Open U path sel h) = fst (launched h ig bin args).
Proof.
  intros Hin.
  destruct (Open_start_inv U _ _ _ _ _ Hin) as (info & f & ig & pre & _ & Hp & _ & Heq).
  exists ig. split; [ congruence | split; [ | exact Heq ] ].
  revert Hp. unfold platform.
  destruct (String.eqb_spec (GOOS h) "windows") as [-> | Hw].
  - intros H; injection H as _ <-. tauto.
  - destruct (String.eqb (GOOS h) "darwin");
      [ intros H; injection H as _ <-; split; [ discriminate | contradiction ] | ].
    destruct (String.eqb (GOOS h) "linux");
      [ intros H; injection H as _ <-; split; [ discriminate | contradiction ]
      | discriminate ].
Qed.

Lemma Open_nil_started h path sel :
  fst (Open U path sel h) = None ->
  exists bin args,
    In (EvStart bin args) (snd (Open U path sel h)) /\ start h bin args = None.
Proof.
  destruct (Open_cases U h path sel)
    as [(e & _ & ->) | [(info & _ & _ & ->)
       | (info & f & ig & b & a & pre & _ & _ & _ & _ & ->)]];
    simpl; try discriminate.
  intros H. exists b, a. split.
  - right. right. apply in_or_app. right.
    unfold launched. destruct (start h b a); now left.
  - unfold launched in H. destruct (start h b a); [ discriminate | reflexivity ].
Qed.

(** X3.  On "darwin" and "linux", [Open] returns nil exactly when the
    process it started was started without error and its wait reports a
    state with exit code 0. *)
Theorem Open_nil_iff_exit_zero (h : Host) (path : string) (sel : bool)
    (Hos : GOOS h = "darwin" \/ GOOS h = "linux") :
  fst (Open U path sel h) = None <->
  exists bin args state,
    In (EvStart bin args) (snd (Open U path sel h)) /\
    start h bin args = None /\
    wait h bin args = inl state /\ ExitCode state = 0%Z.
Proof.
  assert (Hnw : GOOS h <> "windows")
    by (destruct Hos as [-> | ->]; discriminate).
  split.
  - intros Hnil.
    destruct (Open_nil_started _ _ _ Hnil) as (b & a & Hin & Hst).
    destruct (Open_result_of_start _ _ _ _ _ Hin) as (ig & _ & Hig & Heq).
    assert (ig = false) as ->
      by (destruct ig; [ now elim Hnw; apply Hig | reflexivity ]).
    rewrite Hnil in Heq. unfold launched, cmd_Wait, Success in Heq.
    rewrite Hst in Heq. cbn [fst] in Heq.
    destruct (wait h b a) as [st|e] eqn:Hw.
    + destruct (Z.eqb_spec (ExitCode st) 0) as [Hz|_].
      * exists b, a, st. auto.
      * rewrite andb_false_r in Heq. discriminate.
    + rewrite andb_false_r in Heq. discriminate.
  - intros (b & a & st & Hin & Hst & Hw & Hz).
    destruct (Open_result_of_start _ _ _ _ _ Hin) as (ig & _ & _ & ->).
    unfold launched, cmd_Wait, Success. rewrite Hst. cbn [fst].
    rewrite Hw, Hz. reflexivity.
Qed.

(** X4.  On "windows", [Open] returns nil exactly when the process was
    started without error and its wait either reports a state (whatever
    the exit code) or fails with an exit error. *)
Theorem Open_windows_nil_iff (h : Host) (path : string) (sel : bool)
    (Hos : GOOS h = "windows") :
  fst (Open U path sel h) = None <->
  exists bin args,
    In (EvStart bin args) (snd (Open U path sel h)) /\
    start h bin args = None /\
    (forall e, wait h bin args = inr e -> isExitError e = true).
Proof.
  split.
  - intros Hnil.
    destruct (Open_nil_started _ _ _ Hnil) as (b & a & Hin & Hst).
    exists b, a. split; [ exact Hin | split; [ exact Hst | ] ].
    intros e Hw.
    destruct (Open_result_of_start _ _ _ _ _ Hin) as (ig & _ & _ & Heq).
    rewrite Hnil in Heq. unfold launched, cmd_Wait in Heq.
    rewrite Hst in Heq. cbn [fst] in Heq. rewrite Hw in Heq.
    destruct (isExitError e); [ reflexivity | discriminate ].
  - intros (b & a & Hin & Hst & Hw).
    destruct (Open_result_of_start _ _ _ _ _ Hin) as (ig & _ & Hig & ->).
    assert (ig = true) as -> by now apply Hig.
    unfold launched, cmd_Wait. rewrite Hst. cbn [fst].
    destruct (wait h b a) as [st|e].
    + destruct (Success st); reflexivity.
    + rewrite (Hw e eq_refl). reflexivity.
Qed.

(** X5.  On every platform, "windows" included, a wait that fails with
    an error other than an exit error makes [Open] return that error
    wrapped as a process-execution error. *)
Theorem Open_wait_failure (h : Host) (path : string) (sel : bool)
    (bin : string) (args : list string) (e : error)
    (Hin : In (EvStart bin args) (snd (Open U path sel h)))
    (Hstart : start h bin args = None)
    (Hwait : wait h bin args = inr e)
    (Hexit : isExitError e = false) :
  fst (Open U path sel h) = Some (fmt_Errorf waitPrefix e).
Proof.
  destruct (Open_result_of_start _ _ _ _ _ Hin) as (ig & _ & _ & ->).
  unfold launched, cmd_Wait. rewrite Hstart. cbn [fst].
  rewrite Hwait, Hexit. reflexivity.
Qed.

(** X6.  The one call of [os.Getenv] in the package, that of
    [linuxExplorerBinArgs] on XDG_CURRENT_DESKTOP, is made by [Open]
    exactly when the platform is "linux" and the stat call succeeded; a
    run of [Open] makes no other call of [os.Getenv].  What package
    [os/exec] reads to find and start the executable is inside the start
    call and is not described here. *)
Theorem Open_reads_environment_iff (h : Host) (path : string) (sel : bool)
    (key : string) :
  In (EvGetenv key) (snd (Open U path sel h)) <->
  key = XDG /\ GOOS h = "linux" /\ exists info, stat h path = inl info.
Proof.
  destruct (Open_cases U h path sel)
    as [(e & He & Heq) | [(info & Hs & Hp & Heq)
       | (info & f & ig & b & a & pre & Hs & Hp & Hf & _ & Heq)]];
    rewrite Heq; simpl snd.
  - split.
    + intros [H|[]]. discriminate.
    + intros (_ & _ & info & Hs). congruence.
  - split.
    + intros [H|[]]. discriminate.
    + intros (_ & Hos & _). rewrite Hos in Hp. discriminate.
  - pose proof (platform_strategy_env _ _ _ path (sel && negb (IsDir info)) h Hp)
      as Henv.
    rewrite Hf in Henv. simpl in Henv. subst pre.
    split.
    + intros [H|[H|H]]; try discriminate.
      apply in_app_or in H. destruct H as [H|H].
      * destruct (String.eqb_spec (GOOS h) "linux") as [Hl|_]; [ | destruct H ].
        destruct H as [H|[]]. injection H as <-. eauto.
      * apply launched_events in H. destruct H as [H|[H _]]; discriminate.
    + intros (-> & Hos & _). right. right. apply in_or_app. left.
      rewrite Hos. now left.
Qed.

(** The one process start of a run on a supported platform. *)
Lemma Open_starts h path sel info f ig bin args pre :
  stat h path = inl info ->
  platform U (GOOS h) = Some (f, ig) ->
  f path (sel && negb (IsDir info)) h = ((bin, args, None), pre) ->
  starts (snd (Open U path sel h)) = [EvStart bin args].
Proof.
  intros Hs Hp Hf.
  rewrite (Open_supported_case U h path sel info f ig bin args pre Hs Hp Hf).
  pose proof (platform_strategy_env _ _ _ path (sel && negb (IsDir info)) h Hp)
    as Henv.
  rewrite Hf in Henv. simpl in Henv. subst pre.
  unfold starts. simpl. rewrite filter_app.
  replace (filter isStart (if (GOOS h =? "linux")%string
                           then [EvGetenv XDG] else [])) with (@nil Event)
    by (destruct (GOOS h =? "linux")%string; reflexivity).
  unfold launched. destruct (start h bin args); reflexivity.
Qed.

(** X7.  On "windows" the one process [Open] starts is explorer: with the
    selection token when selection is requested and the path is not a
    directory, and with the bare path otherwise, a directory included. *)
Theorem Open_windows_launch (h : Host) (path : string) (sel : bool)
    (info : FileInfo) (Hos : GOOS h = "windows")
    (Hstat : stat h path = inl info) :
  starts (snd (Open U path sel h)) =
    [EvStart "explorer"
       [if sel && negb (IsDir info) then selectToken path else path]].
Proof.
  assert (Hp : platform U (GOOS h) = Some (windowsExplorerBinArgs, true))
    by (rewrite Hos; reflexivity).
  apply (Open_starts h path sel info _ _ _ _ [] Hstat Hp).
  destruct (sel && negb (IsDir info)); reflexivity.
Qed.

(** X8.  On "darwin" the one process [Open] starts is open: with [-R]
    before the path when selection is requested and the path is not a
    directory, and with the path alone otherwise, a directory included. *)
Theorem Open_darwin_launch (h : Host) (path : string) (sel : bool)
    (info : FileInfo) (Hos : GOOS h = "darwin")
    (Hstat : stat h path = inl info) :
  starts (snd (Open U path sel h)) =
    [EvStart "open"
       (if sel && negb (IsDir info) then ["-R"; path] else [path])].
Proof.
  assert (Hp : platform U (GOOS h) = Some (darwinExplorerBinArgs, false))
    by (rewrite Hos; reflexivity).
  apply (Open_starts h path sel info _ _ _ _ [] Hstat Hp).
  destruct (sel && negb (IsDir info)); reflexivity.
Qed.

Lemma linuxDispatch_spec de path sel h :
  exists bin,
    fst (linuxDispatch de path sel h) =
      (bin,
       [if sel && existsb (String.eqb de) desktopNames then path else Dir path],
       None).
Proof.
  unfold linuxDispatch, desktopNames, existsb.
  destruct sel; string_cases; eexists; reflexivity.
Qed.

(** X9.  On "linux" the one process [Open] starts has a single argument:
    the path itself when selection is requested, the path is not a
    directory and the normalized desktop identifier is one of the nine
    named ones; [Dir path] in every other case. *)
Theorem Open_linux_launch (h : Host) (path : string) (sel : bool)
    (info : FileInfo) (Hos : GOOS h = "linux")
    (Hstat : stat h path = inl info) :
  exists bin,
    starts (snd (Open U path sel h)) =
      [EvStart bin
         [if sel && negb (IsDir info)
             && existsb (String.eqb (normalize U (environ h XDG))) desktopNames
          then path else Dir path]].
Proof.
  assert (Hp : platform U (GOOS h) = Some (linuxExplorerBinArgs U, false))
    by (rewrite Hos; reflexivity).
  destruct (linuxDispatch_spec (normalize U (environ h XDG)) path
              (sel && negb (IsDir info)) h) as (bin & Hbin).
  exists bin.
  apply (Open_starts h path sel info _ _ _ _ [EvGetenv XDG] Hstat Hp).
  rewrite linuxExplorerBinArgs_run, Hbin. reflexivity.
Qed.

(** X10.  Every error [Open] returns is either the plain error
    "unsupported platform", which wraps nothing, or one of three wrappers
    whose cause, as [errors.Unwrap] returns it, is the error of the failed
    stat call, of the failed start, or of the wait, and whose text is the
    stage prefix followed by the text of the cause. *)
Theorem Open_error_cause (h : Host) (path : string) (sel : bool)
    (err : error) (Herr : fst (Open U path sel h) = Some err) :
  (err = errors_New "unsupported platform" /\ errors_Unwrap err = None /\
   platform U (GOOS h) = None) \/
  exists prefix cause,
    errors_Unwrap err = Some cause /\
    Error err = (prefix ++ Error cause)%string /\
    ((prefix = statPrefix /\ stat h path = inr cause) \/
     (exists bin args,
        In (EvStart bin args) (snd (Open U path sel h)) /\
        ((prefix = startPrefix /\ start h bin args = Some cause) \/
         (prefix = waitPrefix /\ start h bin args = None /\
          fst (cmd_Wait bin args h) = Some cause)))).
Proof.
  destruct (Open_cases U h path sel)
    as [(e & He & Heq) | [(info & Hs & Hp & Heq)
       | (info & f & ig & b & a & pre & Hs & Hp & Hf & _ & Heq)]];
    rewrite Heq in *; simpl fst in Herr; simpl snd.
  - injection Herr as <-. right. exists statPrefix, e. auto.
  - injection Herr as <-. left. auto.
  - right.
    assert (Hin : In (EvStart b a)
                     (EvStat path :: EvBinArgs path (sel && negb (IsDir info))
                        :: pre ++ snd (launched h ig b a))).
    { right. right. apply in_or_app. right.
      unfold launched. destruct (start h b a); now left. }
    unfold launched in Herr.
    destruct (start h b a) as [e|] eqn:Hst; cbn [fst] in Herr.
    + injection Herr as <-. exists startPrefix, e.
      split; [ reflexivity | split; [ reflexivity | ] ].
      right. exists b, a. auto.
    + destruct (fst (cmd_Wait b a h)) as [e|] eqn:Hw; [ | discriminate ].
      destruct (isExitError e && ig); [ discriminate | ].
      injection Herr as <-. exists waitPrefix, e.
      split; [ reflexivity | split; [ reflexivity | ] ].
      right. exists b, a. auto.
Qed.

(** X11.  On "linux" with a desktop identifier that is none of the nine
    named ones, the selection flag changes neither the result of [Open] nor
    the process it starts. *)
Theorem Open_linux_fallback_ignores_selection (h : Host) (path : string)
    (Hos : GOOS h = "linux")
    (Hde : ~ In (normalize U (environ h XDG)) desktopNames) :
  fst (Open U path true h) = fst (Open U path false h) /\
  starts (snd (Open U path true h)) = starts (snd (Open U path false h)).
Proof.
  assert (Hp : platform U (GOOS h) = Some (linuxExplorerBinArgs U, false))
    by (rewrite Hos; reflexivity).
  destruct (stat h path) as [info|e] eqn:Hs.
  - assert (Hf : forall s, linuxExplorerBinArgs U path s h =
                           (("xdg-open", [Dir path], None), [EvGetenv XDG]))
      by (intros s; rewrite linuxExplorerBinArgs_run,
            (linuxDispatch_fallback _ Hde); reflexivity).
    rewrite (Open_supported_case U h path true info _ _ _ _ _ Hs Hp (Hf _)).
    rewrite (Open_supported_case U h path false info _ _ _ _ _ Hs Hp (Hf _)).
    split; reflexivity.
  - rewrite !(Open_stat_error U h path _ e Hs). split; reflexivity.
Qed.

End OpenRuns.

Lemma Open_starts_iff_witness :
  exists bin args,
    In (EvStart bin args)
       (snd (Open asciiOnly doc true (homeHost "linux" "MATE" [] 0))).
Proof.
  apply (proj2 (proj1 (Open_starts_iff asciiOnly
                         (homeHost "linux" "MATE" [] 0) doc true))).
  split; [ exists {| IsDir := false |}; reflexivity | ].
  right. right. reflexivity.
Defined.

(** * The directory passed by the Linux strategies *)

Lemma dirScan_no_separator p k :
  (forall i, i < k -> IsPathSeparator (nth i p zero) = false) ->
  dirScan p k = 0.
Proof.
  induction k as [|k IH]; intros H; cbn [dirScan]; [ reflexivity | ].
  rewrite (H k (Nat.lt_succ_diag_r k)). apply IH. intros i Hi. apply H. lia.
Qed.

Lemma existsb_nth_false {A} (f : A -> bool) l d i :
  existsb f l = false -> i < List.length l -> f (nth i l d) = false.
Proof.
  intros H Hi.
  destruct (f (nth i l d)) eqn:Hf; [ | reflexivity ].
  assert (existsb f l = true)
    by (apply existsb_exists; exists (nth i l d); split; [ now apply nth_In | exact Hf ]).
  congruence.
Qed.

Lemma Dir_no_separator path : hasSeparator path = false -> Dir path = ".".
Proof.
  unfold hasSeparator, Dir. intros H.
  rewrite dirScan_no_separator; [ reflexivity | ].
  intros i Hi. now apply existsb_nth_false.
Qed.

(** The scan of [Dir] stops just after the last separator. *)
Lemma dirScan_last_separator d name :
  existsb IsPathSeparator name = false ->
  dirScan (d ++ Separator :: name) (List.length (d ++ Separator :: name)) =
  S (List.length d).
Proof.
  intros H.
  assert (Hk : forall j, j <= List.length name ->
             dirScan (d ++ Separator :: name) (S (List.length d) + j) =
             S (List.length d)).
  { induction j as [|j IH]; intros Hj.
    - rewrite Nat.add_0_r. cbn [dirScan].
      rewrite app_nth2, Nat.sub_diag by lia. reflexivity.
    - rewrite Nat.add_succ_r. cbn [dirScan].
      rewrite app_nth2 by lia.
      replace (S (List.length d) + j - List.length d) with (S j) by lia.
      cbn [nth].
      rewrite (existsb_nth_false _ _ _ _ H) by lia.
      apply IH. lia. }
  rewrite length_app. cbn [List.length].
  replace (List.length d + S (List.length name))
    with (S (List.length d) + List.length name) by lia.
  now apply Hk.
Qed.

Lemma list_ascii_of_string_app a b :
  list_ascii_of_string (a ++ b)%string =
  list_ascii_of_string a ++ list_ascii_of_string b.
Proof. induction a as [|c a IH]; simpl; [ reflexivity | now rewrite IH ]. Qed.

Lemma string_of_list_ascii_app a b :
  string_of_list_ascii (a ++ b) =
  (string_of_list_ascii a ++ string_of_list_ascii b)%string.
Proof. induction a as [|c a IH]; simpl; [ reflexivity | now rewrite IH ]. Qed.

(** [Dir] drops the last element of the path. *)
Lemma Dir_drops_last_element d name :
  hasSeparator name = false ->
  Dir (d ++ String Separator name) = Clean (d ++ String Separator EmptyString).
Proof.
  unfold hasSeparator, Dir. intros H.
  rewrite list_ascii_of_string_app. cbn [list_ascii_of_string].
  rewrite (dirScan_last_separator _ _ H).
  replace (list_ascii_of_string d ++ Separator :: list_ascii_of_string name)
    with ((list_ascii_of_string d ++ [Separator]) ++ list_ascii_of_string name)
    by (rewrite <- app_assoc; reflexivity).
  replace (S (List.length (list_ascii_of_string d)))
    with (List.length (list_ascii_of_string d ++ [Separator]) + 0)
    by (rewrite length_app; simpl; lia).
  rewrite firstn_app_2. cbn [firstn]. rewrite app_nil_r.
  rewrite string_of_list_ascii_app, string_of_list_ascii_of_string.
  reflexivity.
Qed.

(** X12.  For a path without any separator, each named Linux strategy
    without selection, and the fallback always, resolve to the single
    argument [.], the current directory. *)
Theorem linux_bare_name_opens_current_directory (h : Host) (path : string)
    (Hsep : hasSeparator path = false) :
  (forall name f, In (name, f) namedStrategies ->
     f path false h = ((name, ["."], None), [])) /\
  (forall sel,
     linuxFallbackExplorerBinArgs path sel h = (("xdg-open", ["."], None), [])).
Proof.
  pose proof (Dir_no_separator path Hsep) as Hd.
  split.
  - intros name f Hin. simpl in Hin.
    repeat (destruct Hin as [Hin|Hin];
            [ injection Hin as <- <-; cbv beta delta
                [linuxCinnamonExplorerBinArgs linuxGnomeExplorerBinArgs
                 linuxKdeExplorerBinArgs linuxLxqtExplorerBinArgs
                 linuxMateExplorerBinArgs linuxXfceExplorerBinArgs];
              cbn [negb]; rewrite Hd; reflexivity | ]).
    contradiction.
  - intros sel. unfold linuxFallbackExplorerBinArgs. rewrite Hd. reflexivity.
Qed.

(** X13.  The directory the Linux strategies substitute does not depend on
    the last element of the path: two names in one directory give the
    same launch spec, under the fallback and under each named strategy
    without selection. *)
Theorem linux_directory_ignores_last_element (h : Host) (d n1 n2 : string)
    (H1 : hasSeparator n1 = false) (H2 : hasSeparator n2 = false) :
  (forall name f, In (name, f) namedStrategies ->
     f (d ++ String Separator n1)%string false h =
     f (d ++ String Separator n2)%string false h) /\
  (forall s1 s2,
     linuxFallbackExplorerBinArgs (d ++ String Separator n1)%string s1 h =
     linuxFallbackExplorerBinArgs (d ++ String Separator n2)%string s2 h).
Proof.
  pose proof (Dir_drops_last_element d n1 H1) as D1.
  pose proof (Dir_drops_last_element d n2 H2) as D2.
  split.
  - intros name f Hin. simpl in Hin.
    repeat (destruct Hin as [Hin|Hin];
            [ injection Hin as <- <-; cbv beta delta
                [linuxCinnamonExplorerBinArgs linuxGnomeExplorerBinArgs
                 linuxKdeExplorerBinArgs linuxLxqtExplorerBinArgs
                 linuxMateExplorerBinArgs linuxXfceExplorerBinArgs];
              cbn [negb]; rewrite D1, D2; reflexivity | ]).
    contradiction.
  - intros s1 s2. unfold linuxFallbackExplorerBinArgs.
    rewrite D1, D2. reflexivity.
Qed.

(** ** Invariants of [Clean] *)

Lemma cleanLoop_cons rooted c t dotdot out :
  cleanLoop rooted (c :: t) dotdot out =
  let element :=
    copyElement rooted dotdot t
      (lb_append
         (if (rooted && negb (w out =? 1)) || (negb rooted && negb (w out =? 0))
          then lb_append out Separator else out) c) in
  if IsPathSeparator c then cleanLoop rooted t dotdot out
  else if isDot c && endOrSep t then cleanLoop rooted t dotdot out
  else
    match t with
    | c1 :: t' =>
        if isDot c && isDot c1 && endOrSep t' then
          if dotdot <? w out then
            cleanLoop rooted t' dotdot
              {| buf := buf out; w := backtrack out dotdot (w out - 1) |}
          else if negb rooted then
            let o1 := if 0 <? w out then lb_append out Separator else out in
            let o2 := lb_append (lb_append o1 "."%char) "."%char in
            cleanLoop rooted t' (w o2) o2
          else cleanLoop rooted t' dotdot out
        else element
    | [] => element
    end.
Proof. reflexivity. Qed.

Lemma copyElement_cons rooted dotdot c l o :
  copyElement rooted dotdot (c :: l) o =
  if IsPathSeparator c then cleanLoop rooted (c :: l) dotdot o
  else copyElement rooted dotdot l (lb_append o c).
Proof. reflexivity. Qed.

Section CleanInvariant.

Variable rooted : bool.
Variable P : nat -> lazybuf -> Prop.

Hypothesis Happend : forall dd o c, P dd o -> P dd (lb_append o c).
Hypothesis Hbacktrack :
  forall dd o, P dd o -> dd < w o ->
               P dd {| buf := buf o; w := backtrack o dd (w o - 1) |}.
Hypothesis Hdotdot : rooted = false -> forall dd o, P dd o -> P (w o) o.

(** A property of the buffer kept by appending, by backtracking and by
    moving [dotdot] to the write index is kept by the whole loop. *)
Lemma cleanLoop_keeps n :
  forall rest, List.length rest <= n ->
  forall dd out, P dd out -> exists dd', P dd' (cleanLoop rooted rest dd out).
Proof.
  induction n as [|n IHn]; intros rest Hn dd out HP.
  - destruct rest; [ exists dd; exact HP | simpl in Hn; lia ].
  - destruct rest as [|c t]; [ exists dd; exact HP | ].
    simpl in Hn. apply le_S_n in Hn.
    assert (Hcopy : forall l o, List.length l <= n -> P dd o ->
                      exists dd', P dd' (copyElement rooted dd l o)).
    { induction l as [|a l IHl]; intros o Hl Ho; [ exists dd; exact Ho | ].
      rewrite copyElement_cons. destruct (IsPathSeparator a).
      - apply IHn; [ exact Hl | exact Ho ].
      - apply IHl; [ simpl in Hl; lia | now apply Happend ]. }
    assert (Helem : exists dd',
               P dd' (copyElement rooted dd t
                        (lb_append
                           (if (rooted && negb (w out =? 1))
                               || (negb rooted && negb (w out =? 0))
                            then lb_append out Separator else out) c))).
    { apply Hcopy; [ exact Hn | ]. apply Happend.
      destruct ((rooted && negb (w out =? 1))
                || (negb rooted && negb (w out =? 0)));
        [ now apply Happend | exact HP ]. }
    rewrite cleanLoop_cons. cbv zeta.
    destruct (IsPathSeparator c); [ now apply IHn | ].
    destruct (isDot c && endOrSep t); [ now apply IHn | ].
    destruct t as [|c1 t']; [ exact Helem | ].
    destruct (isDot c && isDot c1 && endOrSep t'); [ | exact Helem ].
    simpl in Hn.
    destruct (Nat.ltb_spec dd (w out)).
    + apply IHn; [ lia | now apply Hbacktrack ].
    + destruct rooted eqn:Hr; cbn [negb].
      * apply IHn; [ lia | exact HP ].
      * apply IHn; [ lia | ]. apply (Hdotdot eq_refl dd).
        do 2 apply Happend.
        destruct (0 <? w out); [ now apply Happend | exact HP ].
Qed.

End CleanInvariant.

Lemma backtrack_le out dd w0 : backtrack out dd w0 <= w0.
Proof.
  induction w0 as [|w0 IH]; cbn [backtrack]; [ lia | ].
  destruct ((dd <? S w0) && negb (IsPathSeparator (lb_index out (S w0)))); lia.
Qed.

Lemma backtrack_ge out dd w0 : dd <= w0 -> dd <= backtrack out dd w0.
Proof.
  induction w0 as [|w0 IH]; cbn [backtrack]; intros H; [ exact H | ].
  destruct (Nat.ltb_spec dd (S w0)); cbn [andb]; [ | lia ].
  destruct (negb (IsPathSeparator (lb_index out (S w0)))); [ apply IH | ]; lia.
Qed.

Lemma lb_append_length o c :
  w o <= List.length (buf o) ->
  w (lb_append o c) = List.length (buf (lb_append o c)).
Proof.
  intros H. unfold lb_append. cbn [w buf].
  rewrite length_app, length_firstn. simpl. lia.
Qed.

(** The write index never passes the end of the buffer. *)
Lemma cleanLoop_within rooted rest dd out :
  w out <= List.length (buf out) ->
  w (cleanLoop rooted rest dd out)
    <= List.length (buf (cleanLoop rooted rest dd out)).
Proof.
  intros H.
  destruct (cleanLoop_keeps rooted
              (fun _ o => w o <= List.length (buf o))) with
    (n := List.length rest) (rest := rest) (dd := dd) (out := out)
    as (_ & Hk); auto.
  - intros _ o c Ho. rewrite (lb_append_length o c Ho). lia.
  - intros d o Ho _. cbn [w buf]. pose proof (backtrack_le o d (w o - 1)). lia.
Qed.

Lemma lb_string_nonempty o :
  1 <= w o -> w o <= List.length (buf o) -> lb_string o <> EmptyString.
Proof.
  unfold lb_string. destruct o as [b n]. cbn [w buf].
  destruct n as [|n]; [ lia | ]. destruct b as [|c b]; simpl; [ lia | ].
  discriminate.
Qed.

(** [Clean] never returns the empty string. *)
Lemma Clean_nonempty path : Clean path <> EmptyString.
Proof.
  unfold Clean. destruct (list_ascii_of_string path) as [|c t]; [ discriminate | ].
  set (out := if IsPathSeparator c then _ else _).
  assert (Hout : w out <= List.length (buf out)).
  { subst out. destruct (IsPathSeparator c); apply cleanLoop_within; simpl; lia. }
  destruct (Nat.eqb_spec (w out) 0) as [Hz|Hz].
  - apply lb_string_nonempty.
    + cbn [lb_append w]. lia.
    + rewrite (lb_append_length out "."%char Hout). lia.
  - apply lb_string_nonempty; [ lia | exact Hout ].
Qed.

Lemma Dir_nonempty path : Dir path <> EmptyString.
Proof. unfold Dir. apply Clean_nonempty. Qed.

(** X14.  Whatever the desktop identifier and the path, the launch spec
    of the "linux" strategy without selection has exactly one argument
    and that argument is not the empty string. *)
Theorem linux_directory_argument_nonempty (U : UnicodeTables) (h : Host)
    (path : string) :
  exists bin arg,
    fst (linuxExplorerBinArgs U path false h) = (bin, [arg], None) /\
    arg <> EmptyString.
Proof.
  destruct (linuxDispatch_no_selection (normalize U (environ h XDG)) path h)
    as (bin & Hbin).
  exists bin, (Dir path). rewrite linuxExplorerBinArgs_run.
  split; [ exact Hbin | apply Dir_nonempty ].
Qed.

Lemma cleanLoop_rooted rest out :
  rootedBuffer 1 out -> rootedBuffer 1 (cleanLoop true rest 1 out).
Proof.
  intros H.
  destruct (cleanLoop_keeps true rootedBuffer) with
    (n := List.length rest) (rest := rest) (dd := 1) (out := out)
    as (dd' & Hk); auto.
  - intros dd o c (Hd & H1 & H2 & H3). unfold rootedBuffer.
    rewrite <- (lb_append_length o c H2).
    cbn [lb_append w buf]. repeat split; try lia.
    rewrite app_nth1 by (rewrite length_firstn; lia).
    destruct (buf o) as [|b l]; [ simpl in H2; lia | ].
    destruct (w o); [ lia | exact H3 ].
  - intros dd o (Hd & H1 & H2 & H3) Hlt. unfold rootedBuffer. cbn [w buf].
    pose proof (backtrack_le o dd (w o - 1)).
    pose proof (backtrack_ge o dd (w o - 1)).
    repeat split; try lia. exact H3.
  - discriminate.
  - destruct Hk as (_ & Hk). split; [ reflexivity | exact Hk ].
Qed.

(** [Clean] keeps a rooted path rooted. *)
Lemma Clean_rooted t :
  exists t', Clean (String Separator t) = String Separator t'.
Proof.
  unfold Clean. cbn [list_ascii_of_string].
  change (IsPathSeparator Separator) with true. cbv iota.
  set (out := cleanLoop true _ 1 _).
  assert (Hout : rootedBuffer 1 out).
  { subst out. apply cleanLoop_rooted. unfold rootedBuffer. simpl.
    repeat split; lia. }
  destruct Hout as (_ & H1 & H2 & H3).
  destruct (Nat.eqb_spec (w out) 0) as [Hz|_]; [ lia | ].
  unfold lb_string. destruct out as [b m]. cbn [w buf] in *.
  destruct m as [|m]; [ lia | ]. destruct b as [|c b]; [ simpl in H2; lia | ].
  cbn [nth] in H3. subst c. cbn [firstn string_of_list_ascii]. eauto.
Qed.

Lemma dirScan_rooted p k :
  1 <= k -> IsPathSeparator (nth 0 p zero) = true -> 1 <= dirScan p k.
Proof.
  induction k as [|k IH]; intros Hk H0; [ lia | ].
  cbn [dirScan]. destruct (IsPathSeparator (nth k p zero)) eqn:Hs; [ lia | ].
  apply IH; [ | exact H0 ].
  destruct k; [ congruence | lia ].
Qed.

(** [Dir] of a rooted path is rooted. *)
Lemma Dir_rooted t : exists t', Dir (String Separator t) = String Separator t'.
Proof.
  unfold Dir. cbn [list_ascii_of_string List.length].
  pose proof (dirScan_rooted (Separator :: list_ascii_of_string t)
                (S (List.length (list_ascii_of_string t)))) as Hs.
  destruct (dirScan (Separator :: list_ascii_of_string t)
              (S (List.length (list_ascii_of_string t)))) as [|k].
  - assert (1 <= 0) by (apply Hs; [ lia | reflexivity ]). lia.
  - cbn [firstn string_of_list_ascii]. apply Clean_rooted.
Qed.

(** X15.  For a path that begins with a separator, the argument of the
    "linux" strategy without selection begins with a separator as well:
    an absolute path is never turned into a relative one. *)
Theorem linux_directory_argument_rooted (U : UnicodeTables) (h : Host)
    (path t : string) (Hroot : path = String Separator t) :
  exists bin t',
    fst (linuxExplorerBinArgs U path false h) =
      (bin, [String Separator t'], None).
Proof.
  destruct (linuxDispatch_no_selection (normalize U (environ h XDG)) path h)
    as (bin & Hbin).
  destruct (Dir_rooted t) as (t' & Ht').
  exists bin, t'. rewrite linuxExplorerBinArgs_run, Hbin, Hroot, Ht'.
  reflexivity.
Qed.

(** * Concrete runs of the further properties *)

Lemma Open_nil_iff_exit_zero_witness :
  fst (Open asciiOnly doc true (homeHost "darwin" EmptyString [] 0)) = None.
Proof.
  apply (proj2 (Open_nil_iff_exit_zero asciiOnly
                  (homeHost "darwin" EmptyString [] 0) doc true
                  (or_introl eq_refl))).
  exists "open", ["-R"; doc], (okState 0).
  split; [ vm_compute; tauto | ].
  split; [ reflexivity | split; reflexivity ].
Defined.

Lemma Open_windows_nil_iff_witness :
  fst (Open asciiOnly doc true (homeHost "windows" EmptyString [] 3)) = None.
Proof.
  apply (proj2 (Open_windows_nil_iff asciiOnly
                  (homeHost "windows" EmptyString [] 3) doc true eq_refl)).
  exists "explorer", [selectToken doc].
  split; [ vm_compute; tauto | ].
  split; [ reflexivity | intros e H; discriminate H ].
Defined.

Lemma Open_wait_failure_witness :
  fst (Open asciiOnly doc false
         (waitFailing (homeHost "windows" EmptyString [] 0)
            (errorString "wait: no child processes"))) =
    Some (fmt_Errorf waitPrefix (errorString "wait: no child processes")).
Proof.
  apply (Open_wait_failure asciiOnly
           (waitFailing (homeHost "windows" EmptyString [] 0)
              (errorString "wait: no child processes"))
           doc false "explorer" [doc]);
    [ vm_compute; tauto | reflexivity | reflexivity | reflexivity ].
Defined.

Lemma Open_reads_environment_iff_witness :
  In (EvGetenv XDG)
     (snd (Open asciiOnly doc false (homeHost "linux" "KDE" [] 0))).
Proof.
  apply (proj2 (Open_reads_environment_iff asciiOnly
                  (homeHost "linux" "KDE" [] 0) doc false XDG)).
  split; [ reflexivity | split; [ reflexivity | ] ].
  exists {| IsDir := false |}. reflexivity.
Defined.

Lemma Open_windows_launch_witness :
  starts (snd (Open asciiOnly doc true (homeHost "windows" EmptyString [] 0))) =
    [EvStart "explorer" [selectToken doc]] /\
  starts (snd (Open asciiOnly "/home/user" true
                 (homeHost "windows" EmptyString [] 0))) =
    [EvStart "explorer" ["/home/user"]].
Proof.
  split.
  - exact (Open_windows_launch asciiOnly (homeHost "windows" EmptyString [] 0)
             doc true {| IsDir := false |} eq_refl eq_refl).
  - exact (Open_windows_launch asciiOnly (homeHost "windows" EmptyString [] 0)
             "/home/user" true {| IsDir := true |} eq_refl eq_refl).
Defined.

Lemma Open_darwin_launch_witness :
  starts (snd (Open asciiOnly doc true (homeHost "darwin" EmptyString [] 0))) =
    [EvStart "open" ["-R"; doc]] /\
  starts (snd (Open asciiOnly "/home/user" true
                 (homeHost "darwin" EmptyString [] 0))) =
    [EvStart "open" ["/home/user"]].
Proof.
  split.
  - exact (Open_darwin_launch asciiOnly (homeHost "darwin" EmptyString [] 0)
             doc true {| IsDir := false |} eq_refl eq_refl).
  - exact (Open_darwin_launch asciiOnly (homeHost "darwin" EmptyString [] 0)
             "/home/user" true {| IsDir := true |} eq_refl eq_refl).
Defined.

Lemma Open_linux_launch_witness :
  (exists bin,
     starts (snd (Open asciiOnly doc true (homeHost "linux" " gnome" [] 0))) =
       [EvStart bin [doc]]) /\
  (exists bin,
     starts (snd (Open asciiOnly doc true (homeHost "linux" "sway" [] 0))) =
       [EvStart bin ["/home/user"]]).
Proof.
  split.
  - exact (Open_linux_launch asciiOnly (homeHost "linux" " gnome" [] 0)
             doc true {| IsDir := false |} eq_refl eq_refl).
  - exact (Open_linux_launch asciiOnly (homeHost "linux" "sway" [] 0)
             doc true {| IsDir := false |} eq_refl eq_refl).
Defined.

Lemma Open_error_cause_witness :
  exists prefix cause,
    errors_Unwrap
      (fmt_Errorf startPrefix
         (errorString "exec: caja: executable file not found")) = Some cause /\
    Error (fmt_Errorf startPrefix
             (errorString "exec: caja: executable file not found")) =
      (prefix ++ Error cause)%string.
Proof.
  destruct (Open_error_cause asciiOnly (homeHost "linux" "MATE" ["caja"] 0)
              doc true
              (fmt_Errorf startPrefix
                 (errorString "exec: caja: executable file not found"))
              eq_refl)
    as [(H & _) | (prefix & cause & H1 & H2 & _)].
  - discriminate H.
  - exists prefix, cause. split; [ exact H1 | exact H2 ].
Defined.

Lemma Open_linux_fallback_ignores_selection_witness :
  fst (Open asciiOnly doc true (homeHost "linux" "Unity" [] 0)) =
    fst (Open asciiOnly doc false (homeHost "linux" "Unity" [] 0)) /\
  starts (snd (Open asciiOnly doc true (homeHost "linux" "Unity" [] 0))) =
    starts (snd (Open asciiOnly doc false (homeHost "linux" "Unity" [] 0))).
Proof.
  apply (Open_linux_fallback_ignores_selection asciiOnly
           (homeHost "linux" "Unity" [] 0) doc eq_refl).
  vm_compute. intuition discriminate.
Defined.

Lemma linux_bare_name_opens_current_directory_witness :
  linuxXfceExplorerBinArgs "doc.txt" false (homeHost "linux" "XFCE" [] 0) =
    (("thunar", ["."], None), []) /\
  linuxFallbackExplorerBinArgs "doc.txt" true (homeHost "linux" "XFCE" [] 0) =
    (("xdg-open", ["."], None), []).
Proof.
  destruct (linux_bare_name_opens_current_directory
              (homeHost "linux" "XFCE" [] 0) "doc.txt" eq_refl) as (H1 & H2).
  split; [ | exact (H2 true) ].
  apply (H1 "thunar" linuxXfceExplorerBinArgs).
  do 5 right. left. reflexivity.
Defined.

Lemma linux_directory_ignores_last_element_witness :
  linuxFallbackExplorerBinArgs "/home/user/a.txt" true
    (homeHost "linux" EmptyString [] 0) =
  linuxFallbackExplorerBinArgs "/home/user/b.txt" false
    (homeHost "linux" EmptyString [] 0).
Proof.
  destruct (linux_directory_ignores_last_element
              (homeHost "linux" EmptyString [] 0) "/home/user" "a.txt" "b.txt"
              eq_refl eq_refl) as (_ & H).
  exact (H true false).
Defined.

Lemma linux_directory_argument_rooted_witness :
  exists bin t',
    fst (linuxExplorerBinArgs asciiOnly doc false
           (homeHost "linux" "LXQT" [] 0)) =
      (bin, [String Separator t'], None).
Proof.
  exact (linux_directory_argument_rooted asciiOnly
           (homeHost "linux" "LXQT" [] 0) doc "home/user/doc.txt" eq_refl).
Defined.

(** * Matching of the desktop identifier *)

Lemma linuxDispatch_any_host de path sel h1 h2 :
  linuxDispatch de path sel h1 = linuxDispatch de path sel h2.
Proof. unfold linuxDispatch. string_cases; reflexivity. Qed.

(** X16.  The "linux" strategy matches the desktop identifier without
    regard to ASCII letter case or surrounding ASCII white space: two
    values of XDG_CURRENT_DESKTOP that are ASCII words with the same
    upper-casing, each between runs of ASCII white space, give the same
    launch spec. *)
Theorem linux_dispatch_ignores_case_and_padding (U : UnicodeTables)
    (h1 h2 : Host) (path : string) (sel : bool)
    (l1 w1 r1 l2 w2 r2 : list ascii)
    (Hl1 : asciiPadding l1 = true) (Hw1 : asciiWord w1 = true)
    (Hr1 : asciiPadding r1 = true)
    (Hl2 : asciiPadding l2 = true) (Hw2 : asciiWord w2 = true)
    (Hr2 : asciiPadding r2 = true)
    (He1 : environ h1 XDG = string_of_list_ascii (l1 ++ w1 ++ r1))
    (He2 : environ h2 XDG = string_of_list_ascii (l2 ++ w2 ++ r2))
    (Hup : mapBytes upperByte (string_of_list_ascii w1) =
           mapBytes upperByte (string_of_list_ascii w2)) :
  linuxExplorerBinArgs U path sel h1 = linuxExplorerBinArgs U path sel h2.
Proof.
  rewrite !linuxExplorerBinArgs_run, He1, He2.
  rewrite (normalize_padded U _ _ _ Hl1 Hw1 Hr1).
  rewrite (normalize_padded U _ _ _ Hl2 Hw2 Hr2).
  rewrite Hup.
  now rewrite (linuxDispatch_any_host _ path sel h1 h2).
Qed.

Lemma linux_dispatch_ignores_case_and_padding_witness :
  linuxExplorerBinArgs asciiOnly doc true (homeHost "linux" "  Kde" [] 0) =
  linuxExplorerBinArgs asciiOnly doc true (homeHost "linux" "KDE " [] 0).
Proof.
  apply (linux_dispatch_ignores_case_and_padding asciiOnly
           (homeHost "linux" "  Kde" [] 0) (homeHost "linux" "KDE " [] 0)
           doc true
           (list_ascii_of_string "  ") (list_ascii_of_string "Kde") []
           [] (list_ascii_of_string "KDE") (list_ascii_of_string " "));
    reflexivity.
Defined.
